(** * bsa: binding of SQL directives to the function fields of a struct

    A shallow embedding of [Bind] (package [bsa]) and of the closures it
    installs, together with the properties of the binding engine.

    The Go program works through [reflect]: types and values are data here
    ([GoType], [GoValue]), the target struct is a finite map from field
    names to slots, and the calls that leave the package (the database
    resource, the query loader, the row scanner) are operations on an
    abstract world, each of them recorded in a trace. *)

From Stdlib Require Import ZArith List Ascii String Bool Lia.
From stdpp Require Import base option list strings gmap.

Local Open Scope string_scope.
Local Open Scope Z_scope.

(** ** Errors *)

(** Go [error] values as [Bind] and its collaborators build them. *)
#[warnings="-register-all"]
Inductive GoError : Type :=
| Sentinel (msg : string)                 (* a package-level [errors.New] value *)
| Errorf (msg : string)                   (* [fmt.Errorf] without [%w] *)
| Wrap (msg : string) (inner : GoError)   (* [fmt.Errorf] with [%w] *)
| Join (errs : list GoError).             (* [errors.Join] *)

(** [sql.ErrNoRows] and [context.Canceled]. *)
Definition ErrNoRows : GoError := Sentinel "sql: no rows in result set".
Definition Canceled : GoError := Sentinel "context canceled".

Fixpoint GoError_eqb (a b : GoError) {struct a} : bool :=
  match a, b with
  | Sentinel m, Sentinel n => String.eqb m n
  | Errorf m, Errorf n => String.eqb m n
  | Wrap m i, Wrap n j => String.eqb m n && GoError_eqb i j
  | Join xs, Join ys =>
      (fix all2 (xs ys : list GoError) {struct xs} : bool :=
         match xs, ys with
         | [], [] => true
         | x :: xs', y :: ys' => GoError_eqb x y && all2 xs' ys'
         | _, _ => false
         end) xs ys
  | _, _ => false
  end.

(** [errors.Is]: the error itself, or anything reachable through [Unwrap]. *)
Fixpoint errors_Is (err target : GoError) {struct err} : bool :=
  GoError_eqb err target ||
  match err with
  | Wrap _ inner => errors_Is inner target
  | Join errs =>
      (fix any (l : list GoError) : bool :=
         match l with
         | [] => false
         | e :: l' => errors_Is e target || any l'
         end) errs
  | _ => false
  end.

(** The [Error()] text; [errors.Join] separates its parts by a newline. *)
Definition newline : string := String (ascii_of_nat 10) EmptyString.

Fixpoint Error (e : GoError) : string :=
  match e with
  | Sentinel m | Errorf m | Wrap m _ => m
  | Join errs =>
      (fix go (l : list GoError) : string :=
         match l with
         | [] => ""
         | [x] => Error x
         | x :: l' => Error x +:+ newline +:+ go l'
         end) errs
  end.

(** ** Strings *)

(** [strings.CutPrefix]. *)
Fixpoint CutPrefix (s prefix : string) {struct prefix} : string * bool :=
  match prefix with
  | EmptyString => (s, true)
  | String c p =>
      match s with
      | EmptyString => (s, false)
      | String d s' =>
          if Ascii.eqb c d then
            match CutPrefix s' p with
            | (r, true) => (r, true)
            | (_, false) => (s, false)
            end
          else (s, false)
      end
  end.

(** [strings.HasSuffix]. *)
Definition HasSuffix (s suffix : string) : bool :=
  let n := String.length s in
  let k := String.length suffix in
  (k <=? n)%nat && String.eqb (String.substring (n - k) k s) suffix.

(** ** Types, as [reflect.Type] shows them *)

Inductive Kind : Set :=
| KBool | KInt | KInt64 | KString | KInterface | KStruct | KPointer | KSlice | KFunc.

Definition Kind_eqb (a b : Kind) : bool :=
  match a, b with
  | KBool, KBool | KInt, KInt | KInt64, KInt64 | KString, KString
  | KInterface, KInterface | KStruct, KStruct | KPointer, KPointer
  | KSlice, KSlice | KFunc, KFunc => true
  | _, _ => false
  end.

(** A struct tag is kept as the list of its [key:"value"] pairs, in the
    order they are written. *)
Definition StructTag : Type := list (string * string).

#[warnings="-register-all"]
Inductive GoType : Type :=
| TBool | TInt | TInt64 | TString
| TError                       (* the interface [error] *)
| TAny                         (* [interface{}] *)
| TDBResource                  (* the interface [bsa.DBResource] *)
| TErrorImpl                   (* the dynamic type of a non-nil error *)
| TConn                        (* a handle type with the four methods of
                                  [DBResource]: [*sql.DB], [*sql.Tx] *)
| TStruct (name : string) (fields : list StructField)
| TPointer (elem : GoType)
| TSlice (elem : GoType)
| TFunc (ins outs : list GoType)
with StructField : Type :=
| mkField (Name PkgPath : string) (Typ : GoType) (Tag : StructTag).

Definition Name (f : StructField) : string := let '(mkField n _ _ _) := f in n.
Definition PkgPath (f : StructField) : string := let '(mkField _ p _ _) := f in p.
Definition Typ (f : StructField) : GoType := let '(mkField _ _ t _) := f in t.
Definition Tag (f : StructField) : StructTag := let '(mkField _ _ _ g) := f in g.

Definition kindOf (t : GoType) : Kind :=
  match t with
  | TBool => KBool | TInt => KInt | TInt64 => KInt64 | TString => KString
  | TError | TAny | TDBResource => KInterface
  | TErrorImpl | TConn | TPointer _ => KPointer
  | TStruct _ _ => KStruct
  | TSlice _ => KSlice
  | TFunc _ _ => KFunc
  end.

(** [Type.Elem], which panics on a type that has no element type. *)
Definition Elem (t : GoType) : option GoType :=
  match t with
  | TPointer e | TSlice e => Some e
  | TErrorImpl => Some (TStruct "errors.errorString" [])
  | TConn => Some (TStruct "sql.DB" [])
  | _ => None
  end.

(** [Type.NumOut] and [Type.Out]; [Bind] calls them on function types only. *)
Definition NumOut (t : GoType) : nat :=
  match t with TFunc _ outs => length outs | _ => 0%nat end.

Definition Out (t : GoType) (i : nat) : option GoType :=
  match t with TFunc _ outs => outs !! i | _ => None end.

(** [StructTag.Get]: the value of the first pair with this key, and the
    empty string when there is none. *)
Fixpoint TagGet (tag : StructTag) (key : string) : string :=
  match tag with
  | [] => ""
  | (k, v) :: rest => if String.eqb k key then v else TagGet rest key
  end.

(** [StructField.IsExported]: [f.PkgPath == ""]. [reflect] leaves the
    package path of a field empty exactly when its name is exported, that
    is, starts with an upper-case letter of any script. *)
Definition IsExported (f : StructField) : bool := String.eqb (PkgPath f) "".

Fixpoint GoType_eqb (a b : GoType) {struct a} : bool :=
  let fix all2 (xs ys : list GoType) {struct xs} : bool :=
    match xs, ys with
    | [], [] => true
    | x :: xs', y :: ys' => GoType_eqb x y && all2 xs' ys'
    | _, _ => false
    end in
  match a, b with
  | TBool, TBool | TInt, TInt | TInt64, TInt64 | TString, TString
  | TError, TError | TAny, TAny | TDBResource, TDBResource
  | TErrorImpl, TErrorImpl | TConn, TConn => true
  | TStruct n fs, TStruct m gs =>
      String.eqb n m &&
      (fix fields2 (fs gs : list StructField) {struct fs} : bool :=
         match fs, gs with
         | [], [] => true
         | mkField fn fp ft fg :: fs', mkField gn gp gt gg :: gs' =>
             String.eqb fn gn && String.eqb fp gp && GoType_eqb ft gt &&
             bool_decide (fg = gg) && fields2 fs' gs'
         | _, _ => false
         end) fs gs
  | TPointer x, TPointer y => GoType_eqb x y
  | TSlice x, TSlice y => GoType_eqb x y
  | TFunc i o, TFunc i' o' => all2 i i' && all2 o o'
  | _, _ => false
  end.

(** The text [%v] prints for a type. *)
Fixpoint typeString (t : GoType) : string :=
  let fix commas (l : list GoType) : string :=
    match l with
    | [] => ""
    | [x] => typeString x
    | x :: l' => typeString x +:+ ", " +:+ commas l'
    end in
  match t with
  | TBool => "bool" | TInt => "int" | TInt64 => "int64" | TString => "string"
  | TError => "error" | TAny => "interface {}" | TDBResource => "bsa.DBResource"
  | TErrorImpl => "*errors.errorString" | TConn => "*sql.DB"
  | TStruct n _ => n
  | TPointer e => "*" +:+ typeString e
  | TSlice e => "[]" +:+ typeString e
  | TFunc i o =>
      "func(" +:+ commas i +:+ ")" +:+
      match o with
      | [] => ""
      | [x] => " " +:+ typeString x
      | _ => " (" +:+ commas o +:+ ")"
      end
  end.

(** ** Values *)

(** Database handles are named by a number; what a handle does is given by
    the world ([Database] below). *)
Definition ResId : Set := nat.

(** The receiver of a database call: a handle, or the nil pointer of a
    handle type, on which every method of [*sql.DB] and [*sql.Tx] panics. *)
Inductive Executor : Set :=
| Live (r : ResId)
| NilHandle.

#[warnings="-register-all"]
Inductive GoValue : Type :=
| VBool (b : bool)
| VInt (n : Z)
| VInt64 (n : Z)
| VString (s : string)
| VErr (e : GoError)                            (* a non-nil error *)
| VConn (r : ResId)                             (* a database handle that is not nil;
                                                   the nil one is [VPtr TConn None] *)
| VStruct (t : GoType) (fields : list GoValue)
| VPtr (t : GoType) (target : option GoValue)   (* [t] is the pointer type; [None] is nil *)
| VSlice (t : GoType) (items : option (list GoValue))   (* [None] is the nil slice *)
| VNilFunc (t : GoType)
| VIface (t : GoType) (dyn : option GoValue).   (* a slot of interface type [t] *)

(** A Go [any]: [None] is the nil interface, [Some v] a concrete value. *)
Definition any : Type := option GoValue.

(** A [reflect.Value]: [None] is the zero Value, [Some v] a valid one; [v]
    is a [VIface] when the Value has an interface type. *)
Definition Value : Type := option GoValue.

(** [Value.Type]. *)
Definition typeOf (v : GoValue) : GoType :=
  match v with
  | VBool _ => TBool | VInt _ => TInt | VInt64 _ => TInt64 | VString _ => TString
  | VErr _ => TErrorImpl
  | VConn _ => TConn
  | VStruct t _ | VPtr t _ | VSlice t _ | VNilFunc t | VIface t _ => t
  end.

(** [reflect.Zero(t)], as the value it holds. *)
Fixpoint zeroValue (t : GoType) : GoValue :=
  match t with
  | TBool => VBool false
  | TInt => VInt 0
  | TInt64 => VInt64 0
  | TString => VString ""
  | TError | TAny | TDBResource => VIface t None
  | TErrorImpl | TConn | TPointer _ => VPtr t None
  | TStruct _ fs =>
      VStruct t ((fix zeros (l : list StructField) : list GoValue :=
                    match l with
                    | [] => []
                    | mkField _ _ ft _ :: l' => zeroValue ft :: zeros l'
                    end) fs)
  | TSlice _ => VSlice t None
  | TFunc _ _ => VNilFunc t
  end.

(** [Value.Interface]: the element of an interface-typed Value, the value
    itself otherwise. *)
Definition Interface (v : GoValue) : any :=
  match v with
  | VIface _ dyn => dyn
  | _ => Some v
  end.

(** [reflect.ValueOf]; of the nil interface it is the zero Value. *)
Definition ValueOf (x : any) : Value := x.

(** [reflect.New(t)]: a pointer to a fresh zero value of [t]. *)
Definition New (t : GoType) : GoValue := VPtr (TPointer t) (Some (zeroValue t)).

(** [reflect.MakeSlice(t, 0, 0)], which panics when [t] is not a slice type. *)
Definition MakeSlice (t : GoType) : option GoValue :=
  if Kind_eqb (kindOf t) KSlice then Some (VSlice t (Some [])) else None.

(** The type assertion [x.(DBResource)]: it holds for every value of a
    handle type, the nil pointer included, and fails for the nil interface
    and for values of other types. *)
Definition asDBResource (x : any) : option Executor :=
  match x with
  | Some (VConn r) => Some (Live r)
  | Some (VPtr TConn None) => Some NilHandle
  | _ => None
  end.

(** Whether a value of type [src] satisfies the interface type [dst]. *)
Definition implements (dst src : GoType) : bool :=
  match dst, src with
  | TAny, _ => true
  | TError, TErrorImpl => true
  | TDBResource, TConn => true
  | _, _ => false
  end.

(** [Value.assignTo]: the value as one of type [dst], when Go's
    assignability allows it. *)
Definition assignTo (v : GoValue) (dst : GoType) : option GoValue :=
  if GoType_eqb (typeOf v) dst then Some v
  else if implements dst (typeOf v) then Some (VIface dst (Interface v))
  else None.

(** [getErrorValue]. *)
Definition getErrorValue (err : option GoError) : Value :=
  match err with
  | None => Some (zeroValue TError)
  | Some e => ValueOf (Some (VErr e))
  end.

(** ** Results, panics and the trace *)

Inductive result (A : Type) : Type :=
| Ok (a : A)
| Err (e : GoError).
Arguments Ok {A} a.
Arguments Err {A} e.

(** A [sql.Result]. *)
Record SqlResult : Type := {
  LastInsertId : result Z;
  RowsAffected : result Z
}.

(** What [panic] was called with: an error, or the text of a panic that
    [reflect] raises. *)
Inductive PanicVal : Type :=
| PanicErr (e : GoError)
| PanicStr (s : string).

Inductive Res (A : Type) : Type :=
| Ret (a : A)
| Panic (p : PanicVal).
Arguments Ret {A} a.
Arguments Panic {A} p.

(** The panic of a method call on a nil receiver. *)
Definition nilDereference : PanicVal :=
  PanicErr (Sentinel "runtime error: invalid memory address or nil pointer dereference").

(** The calls the package makes on its collaborators. *)
Inductive Event : Type :=
| EvGet (name : string)
| EvExecContext (on : Executor) (q : string) (params : list any)
| EvQueryContext (on : Executor) (q : string) (params : list any)
| EvLastInsertId
| EvRowsAffected
| EvScanOne (dst : GoValue)
| EvScanRow (dst : GoValue)
| EvScanAll (dst : GoValue).

(** ** The world and the collaborators *)

Section Engine.

(** [W] is the state of everything outside the package (database, files),
    [Rows] a [*sql.Rows] cursor, [Context] a [context.Context]. *)
Context {W Rows Context : Type}.

(** The state a call runs in: the world, and the calls made so far. *)
Record St : Type := mkSt {
  world : W;
  trace : list Event
}.

(** A computation that may change the world and may panic. *)
Definition M (A : Type) : Type := St -> St * Res A.

Definition ret {A : Type} (a : A) : M A := fun s => (s, Ret a).

Definition panic {A : Type} (p : PanicVal) : M A := fun s => (s, Panic p).

Definition bind {A B : Type} (m : M A) (k : A -> M B) : M B :=
  fun s =>
    match m s with
    | (s', Ret a) => k a s'
    | (s', Panic p) => (s', Panic p)
    end.

Notation "x <- m ;; k" := (bind m (fun x => k))
  (at level 100, m at next level, right associativity).

(** An operation of the world, with the event it leaves in the trace. *)
Definition perform {A : Type} (ev : Event) (op : W -> W * A) : M A :=
  fun s =>
    let '(w, a) := op (world s) in
    ({| world := w; trace := trace s ++ [ev] |}, Ret a).

(** A method call on a nil pointer or on a nil interface: the trace records
    the call that was attempted, and the call panics. *)
Definition nilCall {A : Type} (ev : Event) : M A :=
  fun s => ({| world := world s; trace := trace s ++ [ev] |}, Panic nilDereference).

(** The two methods of [DBResource] that [Bind] uses, for each handle. *)
Record Database : Type := {
  ExecContext : ResId -> Context -> string -> list any -> W -> W * result SqlResult;
  QueryContext : ResId -> Context -> string -> list any -> W -> W * result Rows
}.

(** The interface [QueryLoader]. *)
Record QueryLoader : Type := {
  Get : string -> W -> W * result string
}.

(** The three functions of [sqlscan] that [Bind] uses. Each one is given
    what its destination pointer points to and gives back what it points
    to afterwards, with the error. *)
Record Scanner : Type := {
  ScanOne : GoValue -> Rows -> W -> W * (GoValue * option GoError);
  ScanRow : GoValue -> Rows -> W -> W * (GoValue * option GoError);
  ScanAll : GoValue -> Rows -> W -> W * (GoValue * option GoError)
}.

(** A field of the target struct instance: plain data, or a function value
    made by [reflect.MakeFunc]. *)
Inductive Slot : Type :=
| SData (v : GoValue)
| SFunc (f : list GoValue -> M (list GoValue)).

(** An argument [dst] of [Bind] that holds a value: its type, and the
    struct instance it points to, by field name ([None]: a nil pointer, or
    no pointer). The nil interface as [dst] is [None : option Dst]. *)
Record Dst : Type := {
  dstType : GoType;
  pointee : option (gmap string Slot)
}.

(** How [Bind] ends: the world and the trace, the instance behind [dst],
    and [Ret None] for [return nil], [Ret (Some e)] for [return e]. *)
Record BindResult : Type := mkBindResult {
  bstate : St;
  btarget : option (gmap string Slot);
  boutcome : Res (option GoError)
}.

(** ** The package *)

(** [fsQueryLoader.Get], over a file system given by [Open] and
    [io.ReadAll], and [path.Join]. *)
Section FsLoader.
Context {File : Type}.
Variable pathJoin : string -> string -> string.
Variable Open : string -> W -> W * result File.
Variable ReadAll : File -> W -> W * result string.
Variable RootPath : string.

Definition fsQueryLoader_Get (name : string) (w : W) : W * result string :=
  match Open (pathJoin RootPath name) w with
  | (w1, Err e) => (w1, Err e)
  | (w1, Ok fd) =>
      match ReadAll fd w1 with
      | (w2, Err e) => (w2, Err e)
      | (w2, Ok b) => (w2, Ok b)
      end
  end.

Definition NewFSQueryLoader : QueryLoader := {| Get := fsQueryLoader_Get |}.
End FsLoader.

(** The results of a function made by [reflect.MakeFunc], converted to the
    declared result types one after the other. *)
Fixpoint assignResults (outs : list GoType) (out : list Value) : Res (list GoValue) :=
  match outs, out with
  | [], [] => Ret []
  | t :: outs', v :: out' =>
      match v with
      | None => Panic (PanicStr "reflect: function created by MakeFunc returned zero Value")
      | Some x =>
          match assignTo x t with
          | None =>
              Panic (PanicStr ("reflect.MakeFunc: value of type " +:+ typeString (typeOf x)
                               +:+ " is not assignable to type " +:+ typeString t))
          | Some y =>
              match assignResults outs' out' with
              | Ret ys => Ret (y :: ys)
              | Panic p => Panic p
              end
          end
      end
  | _, _ => Panic (PanicStr "reflect: wrong return count from function created by MakeFunc")
  end.

(** [reflect.MakeFunc(typ, fn)]: the function value that calls [fn] and
    then checks what it returned, first its length and then each value,
    against the results of [typ]. *)
Definition MakeFunc (typ : GoType) (fn : list GoValue -> M (list Value))
    : list GoValue -> M (list GoValue) :=
  fun args =>
    out <- fn args ;;
    if negb (length out =? NumOut typ)%nat then
      panic (PanicStr "reflect: wrong return count from function created by MakeFunc")
    else
      match assignResults (match typ with TFunc _ outs => outs | _ => [] end) out with
      | Ret vs => ret vs
      | Panic p => panic p
      end.

Section Binder.

Variable db : Database.
Variable scanner : Scanner.

(** The parameters of [Bind] that its closures capture. The handle may be
    nil ([NilHandle]), and so may the loader ([None]). *)
Variable ctx : Context.
Variable handle : Executor.
Variable qLoder : option QueryLoader.
Variable lastInsertIDSupport : bool.

(** Lines 77-92, and again 144-159: the resource to run on and the query
    parameters, from the arguments of the call. *)
Definition chooseExecutor (args : list GoValue) : Executor * list any :=
  match args with
  | a0 :: rest =>
      match asDBResource (Interface a0) with
      | Some tx => (tx, map Interface rest)
      | None => (handle, map Interface args)
      end
  | [] => (handle, map Interface args)
  end.

(** The closure [exec] of [runner]. *)
Definition exec (query : string) (args : list GoValue) : M (Z * Z * option GoError) :=
  let '(executor, values) := chooseExecutor args in
  r <- match executor with
       | Live h => perform (EvExecContext executor query values)
                           (ExecContext db h ctx query values)
       | NilHandle => nilCall (EvExecContext executor query values)
       end ;;
  match r with
  | Err e => ret (0, 0, Some e)
  | Ok result =>
      let rest (id : Z) : M (Z * Z * option GoError) :=
        a <- perform EvRowsAffected (fun w => (w, RowsAffected result)) ;;
        match a with
        | Err e => ret (0, 0, Some e)
        | Ok affected => ret (id, affected, None)
        end in
      if lastInsertIDSupport then
        i <- perform EvLastInsertId (fun w => (w, LastInsertId result)) ;;
        match i with
        | Err e => ret (0, 0, Some e)
        | Ok id => rest id
        end
      else rest 0
  end.

(** [err != nil && errors.Is(err, sql.ErrNoRows)]. *)
Definition isNoRows (err : option GoError) : bool :=
  match err with
  | Some e => errors_Is e ErrNoRows
  | None => false
  end.

(** The closure [Query] of [runner]. *)
Definition Query (query : string) (args : list GoValue) (one : bool) (oType : GoType)
    : M (any * option GoError) :=
  let '(executor, values) := chooseExecutor args in
  r <- match executor with
       | Live h => perform (EvQueryContext executor query values)
                           (QueryContext db h ctx query values)
       | NilHandle => nilCall (EvQueryContext executor query values)
       end ;;
  match r with
  | Err e => ret (None, Some e)
  | Ok rows =>
      if one then
        if Kind_eqb (kindOf oType) KPointer then
          match Elem oType with
          | None => panic (PanicStr "reflect: Elem of invalid type")
          | Some elem =>
              r <- perform (EvScanOne (New elem))
                           (ScanOne scanner (zeroValue elem) rows) ;;
              let '(target, err) := r in
              if isNoRows err then ret (Interface (zeroValue oType), None)
              else ret (Interface (VPtr (TPointer elem) (Some target)), err)
          end
        else
          r <- perform (EvScanRow (New oType))
                       (ScanRow scanner (zeroValue oType) rows) ;;
          let '(target, err) := r in
          let err := if isNoRows err then None else err in
          ret (Interface (VPtr (TPointer oType) (Some target)), err)
      else
        let addressOf (v : GoValue) : GoValue := VPtr (TPointer oType) (Some v) in
        match MakeSlice oType with
        | None => panic (PanicStr "reflect.MakeSlice of non-slice type")
        | Some valueInstance =>
            let valPointer := addressOf valueInstance in
            r <- perform (EvScanAll valPointer) (ScanAll scanner valueInstance rows) ;;
            let '(target, err) := r in
            ret (Interface target, err)
        end
  end.

(** The panic that ends [runner]. *)
Definition unsupported (typ : GoType) : PanicVal :=
  PanicErr (Errorf (typeString typ +:+ ": unsupported return type")).

(** [runner]: the closure for a field of type [typ], or the panic. *)
Definition runner (typ : GoType) (isExec singleSelection : bool) (query : string)
    : Res (list GoValue -> M (list Value)) :=
  let numOut := NumOut typ in
  if isExec then
    match numOut with
    | 0%nat =>
        Ret (fun args =>
          r <- exec query args ;;
          let '(_, _, err) := r in
          match err with
          | Some e => panic (PanicErr e)
          | None => ret []
          end)
    | 1%nat =>
        Ret (fun args =>
          r <- exec query args ;;
          let '(_, _, err) := r in
          ret [getErrorValue err])
    | 2%nat =>
        Ret (fun args =>
          r <- exec query args ;;
          let '(id, affected, err) := r in
          match err with
          | Some e => panic (PanicErr e)
          | None => ret [ValueOf (Some (VInt64 id)); ValueOf (Some (VInt64 affected))]
          end)
    | 3%nat =>
        Ret (fun args =>
          r <- exec query args ;;
          let '(id, affected, err) := r in
          ret [ValueOf (Some (VInt64 id)); ValueOf (Some (VInt64 affected));
               getErrorValue err])
    | _ => Panic (unsupported typ)
    end
  else
    match numOut with
    | 1%nat =>
        Ret (fun args =>
          match Out typ 0 with
          | None => panic (PanicStr "reflect: Func index out of bounds")
          | Some oType =>
              r <- Query query args singleSelection oType ;;
              let '(rows, err) := r in
              match err with
              | Some e => panic (PanicErr e)
              | None => ret [ValueOf rows]
              end
          end)
    | 2%nat =>
        Ret (fun args =>
          match Out typ 0 with
          | None => panic (PanicStr "reflect: Func index out of bounds")
          | Some oType =>
              r <- Query query args singleSelection oType ;;
              let '(rows, err) := r in
              let rowsValue :=
                match rows with
                | None => Some (zeroValue oType)
                | Some _ => ValueOf rows
                end in
              ret [rowsValue; getErrorValue err]
          end)
    | _ => Panic (unsupported typ)
    end.

(** [resolveQuery]. *)
Definition resolveQuery (q fnName : string) : M (string * option GoError) :=
  let '(spec, found) := CutPrefix q "file:" in
  if found then
    let spec := if negb (HasSuffix spec ".sql") then spec +:+ ".sql" else spec in
    r <- match qLoder with
         | Some loader => perform (EvGet spec) (Get loader spec)
         | None => nilCall (EvGet spec)
         end ;;
    match r with
    | Err err =>
        ret ("", Some (Join [Errorf (fnName +:+ ": failed to load file " +:+ q); err]))
    | Ok spec => ret (spec, None)
    end
  else ret (spec, None).

(** One of the three branches of the loop body, which differ in the
    directive text and in the two flags given to [runner]:
    [resolveQuery], then [value.FieldByName(field.Name).Set(MakeFunc(..))]. *)
Definition install (field : StructField) (isExec singleSelection : bool) (text : string)
    (value : option (gmap string Slot)) (s : St) : BindResult :=
  match resolveQuery text (Name field) s with
  | (s1, Panic p) => mkBindResult s1 value (Panic p)
  | (s1, Ret (_, Some err)) => mkBindResult s1 value (Ret (Some err))
  | (s1, Ret (script, None)) =>
      match value with
      | None =>
          mkBindResult s1 value
            (Panic (PanicStr "reflect: call of reflect.Value.FieldByName on zero Value"))
      | Some inst =>
          match runner (Typ field) isExec singleSelection script with
          | Panic p => mkBindResult s1 value (Panic p)
          | Ret fn =>
              mkBindResult s1 (Some (<[Name field := SFunc (MakeFunc (Typ field) fn)]> inst))
                           (Ret None)
          end
      end
  end.

(** The body of the loop over the fields; [Ret None] goes on to the next
    field. *)
Definition bindField (field : StructField) (value : option (gmap string Slot)) (s : St)
    : BindResult :=
  let fType := Typ field in
  if Kind_eqb (kindOf fType) KFunc && IsExported field then
    let exec := TagGet (Tag field) "@exec" in
    let queryAll := TagGet (Tag field) "@query" in
    let queryOne := TagGet (Tag field) "@queryOne" in
    if negb (String.eqb queryOne "") then install field false true queryOne value s
    else if negb (String.eqb queryAll "") then install field false false queryAll value s
    else if negb (String.eqb exec "") then install field true false exec value s
    else
      mkBindResult s value
        (Ret (Some (Errorf (Name field +:+
                            ": function is defined but does not have any queries"))))
  else mkBindResult s value (Ret None).

(** The loop [for i := 0; i < vType.NumField(); i++]. *)
Fixpoint bindFields (fields : list StructField) (value : option (gmap string Slot)) (s : St)
    : BindResult :=
  match fields with
  | [] => mkBindResult s value (Ret None)
  | field :: rest =>
      match bindField field value s with
      | mkBindResult s' value' (Ret None) => bindFields rest value' s'
      | stop => stop
      end
  end.

(** The fields of a struct type. *)
Definition structFields (t : GoType) : list StructField :=
  match t with TStruct _ fs => fs | _ => [] end.

(** [Bind]. For the nil interface as [dst], [reflect.TypeOf] gives the nil
    type and [vType.Kind()] panics. *)
Definition Bind (dst : option Dst) (s : St) : BindResult :=
  match dst with
  | None => mkBindResult s None (Panic nilDereference)
  | Some dst =>
      let vType := dstType dst in
      if negb (Kind_eqb (kindOf vType) KPointer) then
        mkBindResult s (pointee dst) (Ret (Some (Errorf "must be a pointer")))
      else
        match Elem vType with
        | None =>
            mkBindResult s (pointee dst) (Panic (PanicStr "reflect: Elem of invalid type"))
        | Some elem =>
            if negb (Kind_eqb (kindOf elem) KStruct) then
              mkBindResult s (pointee dst)
                (Ret (Some (Errorf ("must be a pointer to a struct. found: "
                                    +:+ typeString vType))))
            else bindFields (structFields elem) (pointee dst) s
        end
  end.

End Binder.
End Engine.

(** ** Vocabulary of the properties *)

(** The fields the loop of [Bind] acts on: function-typed and exported. *)
Definition needsBinding (f : StructField) : bool :=
  Kind_eqb (kindOf (Typ f)) KFunc && IsExported f.

(** The directive the loop body acts on, in the order of its tests, with
    the two flags it gives to [runner]: [(isExec, singleSelection, text)]. *)
Definition directive (f : StructField) : option (bool * bool * string) :=
  if negb (String.eqb (TagGet (Tag f) "@queryOne") "") then
    Some (false, true, TagGet (Tag f) "@queryOne")
  else if negb (String.eqb (TagGet (Tag f) "@query") "") then
    Some (false, false, TagGet (Tag f) "@query")
  else if negb (String.eqb (TagGet (Tag f) "@exec") "") then
    Some (true, false, TagGet (Tag f) "@exec")
  else None.

(** The error of a field without a directive. *)
Definition noQueries (f : StructField) : GoError :=
  Errorf (Name f +:+ ": function is defined but does not have any queries").

(** The name under which [resolveQuery] asks the loader for the text after
    the prefix. *)
Definition fileName (rest : string) : string :=
  if HasSuffix rest ".sql" then rest else rest +:+ ".sql".


(** The slot of a field in what [dst] points to. *)
Definition slotOf {W : Type} (value : option (gmap string (@Slot W))) (name : string)
    : option (@Slot W) :=
  match value with
  | Some inst => inst !! name
  | None => None
  end.

(** A field holding a function made by [MakeFunc] from a closure of
    [runner] for the type of the field. *)
Definition boundTo {W Rows Context : Type} (db : @Database W Rows Context)
    (scanner : @Scanner W Rows) (ctx : Context) (handle : Executor)
    (lastInsertIDSupport : bool) (inst : gmap string (@Slot W)) (f : StructField) : Prop :=
  exists (isExec single : bool) (script : string) fn,
    runner db scanner ctx handle lastInsertIDSupport (Typ f) isExec single script = Ret fn /\
    inst !! Name f = Some (SFunc (MakeFunc (Typ f) fn)).

(** The numbers of results for which the two [switch numOut] of [runner]
    have a case. *)
Definition supportedCount (isExec : bool) (numOut : nat) : bool :=
  if isExec then (numOut <=? 3)%nat else (numOut =? 1)%nat || (numOut =? 2)%nat.

(** A call, with [args] in state [s], of the function that [Bind] sets in
    a field of type [typ]; [None] when [runner] panics for that type. *)
Definition boundCall {W Rows Context : Type} (db : @Database W Rows Context)
    (scanner : @Scanner W Rows) (ctx : Context) (handle : Executor)
    (lastInsertIDSupport : bool) (typ : GoType) (isExec single : bool) (query : string)
    (args : list GoValue) (s : @St W) : option (@St W * Res (list GoValue)) :=
  match runner db scanner ctx handle lastInsertIDSupport typ isExec single query with
  | Ret fn => Some (MakeFunc typ fn args s)
  | Panic _ => None
  end.

(** A call of the field [name] of the target after [Bind]; [None] when the
    field holds no function. *)
Definition callField {W : Type} (r : @BindResult W) (name : string) (args : list GoValue)
    : option (@St W * Res (list GoValue)) :=
  match slotOf (btarget r) name with
  | Some (SFunc f) => Some (f args (bstate r))
  | _ => None
  end.

(** A destination slice cut to length zero, [Value.Slice(0, 0)]: what a
    scan that meets no row leaves in a slice it was given. *)
Definition resliced (d : GoValue) : GoValue :=
  match d with
  | VSlice t (Some _) => VSlice t (Some [])
  | _ => d
  end.

(** The name a reference is documented to stand for: the text after
    [file:] when it ends in [.sql], and that text followed by [.sql] when
    it does not. It is written with equations between strings, apart from
    the test the code makes ([fileName]), to be compared with it. *)
Definition referenceName (rest name : string) : Prop :=
  ((exists base, rest = base +:+ ".sql") /\ name = rest)
  \/ ((forall base, rest <> base +:+ ".sql") /\ name = rest +:+ ".sql").

(** ** A small concrete world, for examples *)

Module Demo.

(** The world is a counter of the calls made; a cursor is the list of its
    rows; a context is its cancellation flag. *)
Definition World : Type := nat.
Definition Cursor : Type := list GoValue.
Definition Ctx : Type := bool.

Definition User : GoType :=
  TStruct "User" [mkField "ID" "" TInt64 []; mkField "Name" "" TString []; mkField "Age" "" TInt []].

(** Every statement inserts one row with identifier 7; every query finds
    no row; a cancelled context aborts both. *)
Definition db : @Database World Cursor Ctx := {|
  ExecContext := fun _ (cancelled : bool) _ _ w =>
    (S w, if cancelled then Err Canceled
          else Ok {| LastInsertId := Ok 7; RowsAffected := Ok 1 |});
  QueryContext := fun _ (cancelled : bool) _ _ w =>
    (S w, if cancelled then Err Canceled else Ok [])
|}.

(** A database of a system without generated identifiers. *)
Definition dbNoIds : @Database World Cursor Ctx := {|
  ExecContext := fun _ _ _ _ w =>
    (S w, Ok {| LastInsertId := Err (Errorf "LastInsertId is not supported by this driver");
                RowsAffected := Ok 1 |});
  QueryContext := fun _ _ _ _ w => (S w, Ok [])
|}.

Definition noRows : GoError := Wrap "scanning one: no rows" ErrNoRows.

(** A scanner that reports a cursor without rows by [sql.ErrNoRows] from
    [ScanOne] and from [ScanRow] alike, which is the report the closure
    [Query] tests for after each of them. ([More.rowScanner] is a scanner
    whose [ScanRow] wants the cursor on a row.) *)
Definition scanner : @Scanner World Cursor := {|
  ScanOne := fun d rows w =>
    match rows with
    | [] => (w, (d, Some noRows))
    | r :: _ => (w, (r, None))
    end;
  ScanRow := fun d rows w =>
    match rows with
    | [] => (w, (d, Some noRows))
    | r :: _ => (w, (r, None))
    end;
  ScanAll := fun d rows w =>
    (w, (match d, rows with
         | VSlice t (Some _), _ => VSlice t (Some rows)
         | VSlice t None, _ :: _ => VSlice t (Some rows)
         | _, _ => d
         end, None))
|}.

Definition notExist : GoError := Errorf "open test/missing.sql: file does not exist".

Definition loader : @QueryLoader World := {|
  Get := fun name w =>
    if String.eqb name "insert_user_steve.sql"
    then (S w, Ok "insert into users(name, age) values ('steve', 30)")
    else (S w, Err notExist)
|}.

Definition s0 : @St World := {| world := 0%nat; trace := [] |}.

Definition emptyRepo (fields : list StructField) : gmap string (@Slot World) :=
  list_to_map (map (fun f => (Name f, SData (zeroValue (Typ f)))) fields).

Definition target (name : string) (fields : list StructField) : @Dst World := {|
  dstType := TPointer (TStruct name fields);
  pointee := Some (emptyRepo fields)
|}.

(** Fields in the manner of the repository's tests. *)
Definition AddUser : StructField :=
  mkField "AddUser" "" (TFunc [TString; TInt] [TInt64; TInt64; TError])
          [("@exec", "insert into users(name, age) values ($1, $2)")].
Definition SelectUser : StructField :=
  mkField "SelectUser" "" (TFunc [TInt64] [TPointer User; TError])
          [("@queryOne", "select * from users where id = $1")].
Definition SelectAllUsers : StructField :=
  mkField "SelectAllUsers" "" (TFunc [] [TSlice (TPointer User)])
          [("@query", "select * from users")].
Definition InsertUserQueryLoader : StructField :=
  mkField "InsertUserQueryLoader" "" (TFunc [] [TInt64; TInt64])
          [("@exec", "file:insert_user_steve")].

End Demo.

(** Further fields and inputs for the examples. *)
Module Cases.
Import Demo.

(** No directive at all. *)
Definition Orphan : StructField :=
  mkField "Orphan" "" (TFunc [] [TError]) [("db", "orphan")].

(** Two directives on one field. *)
Definition Both : StructField :=
  mkField "Both" "" (TFunc [] [TSlice (TPointer User)])
          [("@exec", "delete from users"); ("@query", "select * from users")].

(** All three directives on one field. *)
Definition AllThree : StructField :=
  mkField "AllThree" "" (TFunc [TInt64] [TPointer User; TError])
          [("@exec", "delete from users"); ("@query", "select * from users");
           ("@queryOne", "select * from users where id = $1")].

(** One result that is not [error], on a statement. *)
Definition Purge : StructField :=
  mkField "Purge" "" (TFunc [] [TString]) [("@exec", "delete from users")].

(** No result. *)
Definition Reset : StructField :=
  mkField "Reset" "" (TFunc [] []) [("@exec", "delete from users")].

(** Four results. *)
Definition TooMany : StructField :=
  mkField "TooMany" "" (TFunc [] [TInt64; TInt64; TInt64; TError])
          [("@exec", "delete from users")].

(** A struct as declared result, by value. *)
Definition GetUser : StructField :=
  mkField "GetUser" "" (TFunc [TInt64] [User; TError])
          [("@queryOne", "select * from users where id = $1")].

(** A text of a file that the loader does not have. *)
Definition Missing : StructField :=
  mkField "Missing" "" (TFunc [] [TError]) [("@exec", "file:missing")].

(** A resource as first parameter. *)
Definition AddUserTx : StructField :=
  mkField "AddUserTx" "" (TFunc [TDBResource; TString; TInt] [TInt64; TInt64; TError])
          [("@exec", "insert into users(name, age) values (?, ?)")].

(** Fields that [Bind] passes over: data, and an unexported function. *)
Definition Table : StructField := mkField "Table" "" TString [].
Definition helper : StructField := mkField "helper" "bsa_test" (TFunc [] [TError]) [].

(** A blank field, which a struct may have more than once. *)
Definition blank : StructField := mkField "_" "bsa_test" TInt [].

(** Exported fields whose names begin with a capital letter outside ASCII,
    with a directive and without one. *)
Definition Uber : StructField :=
  mkField "Über" "" (TFunc [] [TError]) [("@exec", "delete from users")].
Definition Ubrig : StructField := mkField "Übrig" "" (TFunc [] [TError]) [].

Definition bindDemo (cancelled : Ctx) (fields : list StructField) : @BindResult World :=
  Bind db scanner cancelled (Live 0%nat) (Some loader) true (Some (target "Repo" fields)) s0.
End Cases.

(** ** Vocabulary of the further properties *)



(** What a result of type [error] holds after [MakeFunc] took it from
    [getErrorValue]. *)
Definition errorResult (err : option GoError) : GoValue :=
  VIface TError (option_map VErr err).

(** The reads of the result of a statement that a call makes after its
    database call returned [r]. *)
Definition execReads (lastInsertIDSupport : bool) (r : result SqlResult) : list Event :=
  match r with
  | Err _ => []
  | Ok result =>
      if lastInsertIDSupport then
        match LastInsertId result with
        | Err _ => [EvLastInsertId]
        | Ok _ => [EvLastInsertId; EvRowsAffected]
        end
      else [EvRowsAffected]
  end.

(** The scan that a call of a query function with declared result [oType]
    makes after its database call returned [r]. *)
Definition queryScans {Rows : Type} (single : bool) (oType : GoType) (r : result Rows)
    : list Event :=
  match r with
  | Err _ => []
  | Ok _ =>
      if single then
        match oType with
        | TPointer elem => [EvScanOne (New elem)]
        | TErrorImpl => [EvScanOne (New (TStruct "errors.errorString" []))]
        | TConn => [EvScanOne (New (TStruct "sql.DB" []))]
        | _ => [EvScanRow (New oType)]
        end
      else
        match oType with
        | TSlice _ => [EvScanAll (VPtr (TPointer oType) (Some (VSlice oType (Some []))))]
        | _ => []
        end
  end.

(** What is in a slot that the loop has set: the closure of [runner] for
    the flags of the directive and the text [resolveQuery] gave. *)
Definition runsDirective {W Rows Context : Type} (db : @Database W Rows Context)
    (scanner : @Scanner W Rows) (ctx : Context) (handle : Executor)
    (qLoder : option (@QueryLoader W))
    (lastInsertIDSupport : bool) (inst : gmap string (@Slot W)) (f : StructField) : Prop :=
  exists (isExec single : bool) (text script : string) (sA sB : St) fn,
    directive f = Some (isExec, single, text)
    /\ resolveQuery qLoder text (Name f) sA = (sB, Ret (script, None))
    /\ runner db scanner ctx handle lastInsertIDSupport (Typ f) isExec single script = Ret fn
    /\ inst !! Name f = Some (SFunc (MakeFunc (Typ f) fn)).

(** ** The file resources of [loaders.go] *)

(** [strings.TrimPrefix]. *)
Definition TrimPrefix (s prefix : string) : string := fst (CutPrefix s prefix).

Section Resources.

(** [File] is an open [fs.File], [FileInfo] an [fs.FileInfo], [Writer] an
    [io.Writer]. *)
Context {W File FileInfo Writer : Type}.

(** An [fs.FS]. *)
Record FS : Type := {
  fsOpen : string -> W -> W * result File
}.

Record ResourceFS : Type := {
  Source : FS;
  RootPath : string;
  DontPrefix : bool
}.

(** What the methods call outside the package: [path.Join] of two
    elements, [File.Close], [filepath.Ext], [mime.TypeByExtension],
    [fs.Stat] with [FileInfo.Size], [io.Copy] and [io.ReadAll]. *)
Variable pathJoin : string -> string -> string.
Variable Close : File -> W -> W.
Variable Ext : string -> string.
Variable TypeByExtension : string -> string.
Variable Stat : FS -> string -> W -> W * result FileInfo.
Variable InfoSize : FileInfo -> Z.
Variable Copy : Writer -> File -> W -> W * (Z * option GoError).
Variable ReadAll : File -> W -> W * result string.

(** [ResourceFS.Absolute]. *)
Definition Absolute (r : ResourceFS) (filename : string) : string :=
  if negb (DontPrefix r) then pathJoin (RootPath r) filename
  else TrimPrefix filename "/".

(** [ResourceFS.ProbeType]; the deferred [Close] runs when it returns. *)
Definition ProbeType (r : ResourceFS) (filename : string) (w : W)
    : W * (string * option GoError) :=
  let filename := Absolute r filename in
  match fsOpen (Source r) filename w with
  | (w1, Err err) => (w1, ("", Some err))
  | (w1, Ok fd) =>
      let ext := Ext filename in
      let t := TypeByExtension ext in
      (Close fd w1, (t, None))
  end.

(** [ResourceFS.Size]. *)
Definition Size (r : ResourceFS) (filename : string) (w : W) : W * (Z * option GoError) :=
  let filename := Absolute r filename in
  match Stat (Source r) filename w with
  | (w1, Err err) => (w1, (0, Some err))
  | (w1, Ok s) => (w1, (InfoSize s, None))
  end.

(** [ResourceFS.WriteTo]. *)
Definition WriteTo (r : ResourceFS) (filename : string) (dst : Writer) (w : W)
    : W * (Z * option GoError) :=
  let filename := Absolute r filename in
  match fsOpen (Source r) filename w with
  | (w1, Err err) => (w1, (0, Some err))
  | (w1, Ok fd) =>
      let '(w2, copied) := Copy dst fd w1 in
      (Close fd w2, copied)
  end.

(** [NewResFSQueryLoader]: the loader of [fsQueryLoader.Get] on the source
    and the root path of the resource. The reading of the opened file is
    [io.ReadAll] followed by the deferred [Close]. *)
Definition NewResFSQueryLoader (r : ResourceFS) : @QueryLoader W :=
  NewFSQueryLoader pathJoin (fsOpen (Source r))
    (fun fd w => let '(w2, b) := ReadAll fd w in (Close fd w2, b))
    (RootPath r).

End Resources.

(** ** Further concrete inputs *)

Module More.
Import Demo.

Definition john : GoValue := VStruct User [VInt64 7; VString "john"; VInt 65].

(** A database whose every query finds the one row [john]. *)
Definition dbOne : @Database World Cursor Ctx := {|
  ExecContext := ExecContext db;
  QueryContext := fun _ _ _ _ w => (S w, Ok [john])
|}.

Definition noColumn : GoError := Errorf "scany: column not found".

(** A scanner that fails on every row, leaving its destination as it was. *)
Definition badScanner : @Scanner World Cursor := {|
  ScanOne := fun d _ w => (w, (d, Some noColumn));
  ScanRow := fun d _ w => (w, (d, Some noColumn));
  ScanAll := fun d _ w => (w, (d, Some noColumn))
|}.

Definition notAdvanced : GoError := Errorf "sql: Scan called without calling Next".

(** A scanner whose [ScanRow] reads the row the cursor is on, and fails on
    a cursor that was not moved to a row, as the one [Query] hands it is. *)
Definition rowScanner : @Scanner World Cursor := {|
  ScanOne := ScanOne scanner;
  ScanRow := fun d _ w => (w, (d, Some notAdvanced));
  ScanAll := ScanAll scanner
|}.

(** A file system with one file. *)
Definition files : @FS World string := {|
  fsOpen := fun path w =>
    if String.eqb path "test/insert_user_steve.sql"
    then (S w, Ok "insert into users(name, age) values ('steve', 30)")
    else (S w, Err notExist)
|}.

(** [path.Clean]: the elements between slashes, without the empty ones and
    [.], and with each [..] taking away the element before it. *)
Fixpoint segments (p cur : string) : list string :=
  match p with
  | EmptyString => [cur]
  | String c rest =>
      if Ascii.eqb c "/" then cur :: segments rest ""
      else segments rest (cur +:+ String c "")
  end.

Fixpoint cleanSegments (rooted : bool) (segs stack : list string) : list string :=
  match segs with
  | [] => rev stack
  | seg :: rest =>
      if String.eqb seg "" || String.eqb seg "." then cleanSegments rooted rest stack
      else if String.eqb seg ".." then
        match stack with
        | top :: below =>
            if String.eqb top ".." then cleanSegments rooted rest (seg :: stack)
            else cleanSegments rooted rest below
        | [] => cleanSegments rooted rest (if rooted then [] else [seg])
        end
      else cleanSegments rooted rest (seg :: stack)
  end.

Definition Clean (p : string) : string :=
  let rooted := match p with String c _ => Ascii.eqb c "/" | EmptyString => false end in
  let out := (if rooted then "/" else "")
             +:+ String.concat "/" (cleanSegments rooted (segments p "") []) in
  if String.eqb out "" then "." else out.

(** [path.Join] of two elements. *)
Definition join (a b : string) : string :=
  if String.eqb a "" && String.eqb b "" then ""
  else Clean (if String.eqb a "" then b else a +:+ "/" +:+ b).

Definition res (dontPrefix : bool) : @ResourceFS World string :=
  {| Source := files; RootPath := "test"; DontPrefix := dontPrefix |}.

(** A file is closed by counting it, copied by its length, and its type
    is read off a table of one extension. *)
Definition close (fd : string) (w : World) : World := S w.
Definition copy (dst : unit) (fd : string) (w : World) : World * (Z * option GoError) :=
  (S w, (Z.of_nat (String.length fd), None)).
Definition ext (path : string) : string :=
  if HasSuffix path ".sql" then ".sql" else "".
Definition mimeType (e : string) : string :=
  if String.eqb e ".sql" then "application/sql" else "".

End More.

(** * Properties *)

Local Open Scope list_scope.

(** ** Strings, errors and types *)

Lemma CutPrefix_app (p rest : string) : CutPrefix (p +:+ rest) p = (rest, true).
Proof.
  induction p as [|c p IH]; simpl; [reflexivity|].
  rewrite Ascii.eqb_refl, IH. reflexivity.
Qed.

Lemma CutPrefix_found (p s r : string) : CutPrefix s p = (r, true) -> s = p +:+ r.
Proof.
  revert s r. induction p as [|c p IH]; simpl; intros s r H.
  - injection H as ->. reflexivity.
  - destruct s as [|d s']; [discriminate|].
    destruct (Ascii.eqb c d) eqn:Hcd; [|discriminate].
    apply Ascii.eqb_eq in Hcd. subst d.
    destruct (CutPrefix s' p) as [r' [|]] eqn:Hrec; [|discriminate].
    injection H as <-. rewrite (IH _ _ Hrec). reflexivity.
Qed.

Lemma CutPrefix_not_found (p s : string) :
  (forall rest, s <> p +:+ rest) -> CutPrefix s p = (s, false).
Proof.
  intros Hno. destruct (CutPrefix s p) as [r [|]] eqn:H.
  - apply CutPrefix_found in H. exfalso. exact (Hno r H).
  - clear Hno. revert s r H. induction p as [|c p IH]; simpl; intros s r H.
    + discriminate.
    + destruct s as [|d s']; [congruence|].
      destruct (Ascii.eqb c d); [|congruence].
      destruct (CutPrefix s' p) as [r' [|]]; congruence.
Qed.

Lemma prefix_append (a b : string) : String.prefix a (a +:+ b) = true.
Proof.
  induction a as [|c a IH]; simpl; [destruct b; reflexivity|].
  destruct (ascii_dec c c); [exact IH | congruence].
Qed.

Lemma GoError_eqb_refl : forall e, GoError_eqb e e = true.
Proof.
  fix IH 1. intros [m|m|m i|errs]; simpl.
  - apply String.eqb_refl.
  - apply String.eqb_refl.
  - rewrite String.eqb_refl, IH. reflexivity.
  - induction errs as [|x l IHl]; [reflexivity|].
    rewrite IH, IHl. reflexivity.
Qed.

Lemma errors_Is_refl (e : GoError) : errors_Is e e = true.
Proof.
  assert (H : forall rest, errors_Is e e = GoError_eqb e e || rest -> errors_Is e e = true).
  { intros rest ->. rewrite GoError_eqb_refl. reflexivity. }
  destruct e; eapply H; reflexivity.
Qed.

(** [errors.Is] finds the second part of a two-part [errors.Join]. *)
Lemma errors_Is_Join_cause (a e : GoError) : errors_Is (Join [a; e]) e = true.
Proof.
  change (errors_Is (Join [a; e]) e)
    with (GoError_eqb (Join [a; e]) e || (errors_Is a e || (errors_Is e e || false))).
  rewrite errors_Is_refl. rewrite !orb_true_r. reflexivity.
Qed.

Lemma GoType_eqb_refl : forall t, GoType_eqb t t = true.
Proof.
  fix IH 1. intros t. destruct t as [ | | | | | | | | | n fs | e | e | i o]; simpl; auto.
  - rewrite String.eqb_refl. simpl.
    induction fs as [|[fn fp ft fg] fs IHfs]; simpl; auto.
    rewrite !String.eqb_refl, IH, bool_decide_eq_true_2, IHfs by reflexivity. reflexivity.
  - assert (H : forall l : list GoType,
      (fix all2 (xs ys : list GoType) {struct xs} : bool :=
         match xs, ys with
         | [], [] => true
         | x :: xs', y :: ys' => GoType_eqb x y && all2 xs' ys'
         | _, _ => false
         end) l l = true).
    { induction l as [|x l IHl]; simpl; auto. rewrite IH, IHl. reflexivity. }
    rewrite !H. reflexivity.
Qed.

Lemma typeOf_zeroValue (t : GoType) : typeOf (zeroValue t) = t.
Proof. destruct t; reflexivity. Qed.

Lemma assignTo_same (v : GoValue) : assignTo v (typeOf v) = Some v.
Proof. unfold assignTo. rewrite GoType_eqb_refl. reflexivity. Qed.

Lemma assignTo_zeroValue (t : GoType) : assignTo (zeroValue t) t = Some (zeroValue t).
Proof. rewrite <- (typeOf_zeroValue t) at 2. apply assignTo_same. Qed.

(** A non-nil error goes into a result of type [error]. *)
Lemma assignTo_error (e : GoError) :
  assignTo (VErr e) TError = Some (VIface TError (Some (VErr e))).
Proof. reflexivity. Qed.

Lemma prefix_append_append (a b c : string) : String.prefix a ((a +:+ b) +:+ c) = true.
Proof.
  induction a as [|x a IH].
  - change (String.prefix "" (b +:+ c) = true). destruct (b +:+ c); reflexivity.
  - change (String.prefix (String x a) (String x ((a +:+ b) +:+ c)) = true). simpl.
    destruct (ascii_dec x x); [exact IH | congruence].
Qed.

Lemma substring_whole (b : string) : String.substring 0 (String.length b) b = b.
Proof. induction b as [|c b IH]; simpl; [reflexivity | rewrite IH; reflexivity]. Qed.

Lemma substring_after (a b : string) (k : nat) :
  String.substring (String.length a) k (a +:+ b) = String.substring 0 k b.
Proof. induction a as [|c a IH]; simpl; [reflexivity | exact IH]. Qed.

Lemma length_append_string (a b : string) :
  String.length (a +:+ b) = (String.length a + String.length b)%nat.
Proof. induction a as [|c a IH]; simpl; [reflexivity | rewrite IH; reflexivity]. Qed.

Lemma HasSuffix_append (a b : string) : HasSuffix (a +:+ b) b = true.
Proof.
  unfold HasSuffix. rewrite length_append_string.
  replace (String.length a + String.length b - String.length b)%nat
    with (String.length a) by lia.
  rewrite substring_after, substring_whole, String.eqb_refl.
  apply andb_true_iff. split; [apply Nat.leb_le; lia | reflexivity].
Qed.

Lemma substring_split (n : nat) (s : string) :
  (n <= String.length s)%nat ->
  s = String.substring 0 n s +:+ String.substring n (String.length s - n) s.
Proof.
  revert s. induction n as [|n IH]; intros s H.
  - rewrite Nat.sub_0_r, substring_whole. destruct s; reflexivity.
  - destruct s as [|c s]; simpl in H; [lia|].
    change (String c s =
            String c (String.substring 0 n s +:+ String.substring n (String.length s - n) s)).
    f_equal. apply IH. lia.
Qed.

(** A string with a suffix is some string followed by the suffix. *)
Lemma HasSuffix_split (s suffix : string) :
  HasSuffix s suffix = true -> exists base, s = base +:+ suffix.
Proof.
  unfold HasSuffix. intros H. apply andb_true_iff in H. destruct H as [Hle Heq].
  apply Nat.leb_le in Hle. apply String.eqb_eq in Heq.
  exists (String.substring 0 (String.length s - String.length suffix) s).
  pose proof (substring_split (String.length s - String.length suffix) s
                ltac:(lia)) as Hs.
  replace (String.length s - (String.length s - String.length suffix))%nat
    with (String.length suffix) in Hs by lia.
  rewrite Heq in Hs. exact Hs.
Qed.

(** The name of the documentation is the name the code computes. *)
Lemma referenceName_fileName (rest name : string) :
  referenceName rest name <-> name = fileName rest.
Proof.
  unfold referenceName, fileName. split.
  - intros [[[base ->] ->]|[Hno ->]].
    + rewrite HasSuffix_append. reflexivity.
    + destruct (HasSuffix rest ".sql") eqn:E; [|reflexivity].
      destruct (HasSuffix_split _ _ E) as [base Hb]. destruct (Hno base Hb).
  - intros ->. destruct (HasSuffix rest ".sql") eqn:E.
    + left. split; [exact (HasSuffix_split _ _ E) | reflexivity].
    + right. split; [|reflexivity]. intros base ->.
      rewrite HasSuffix_append in E. discriminate E.
Qed.

(** ** The loop of [Bind] *)

Section Properties.

Context {W Rows Context : Type}.
Variable db : @Database W Rows Context.
Variable scanner : @Scanner W Rows.
Variable ctx : Context.
Variable handle : Executor.
Variable qLoder : option (@QueryLoader W).
Variable lastInsertIDSupport : bool.

Local Abbreviation runner' := (runner db scanner ctx handle lastInsertIDSupport).
Local Abbreviation install' := (install db scanner ctx handle qLoder lastInsertIDSupport).
Local Abbreviation bindField' := (bindField db scanner ctx handle qLoder lastInsertIDSupport).
Local Abbreviation bindFields' := (bindFields db scanner ctx handle qLoder lastInsertIDSupport).
Local Abbreviation Bind' d := (Bind db scanner ctx handle qLoder lastInsertIDSupport (Some d)).
Local Abbreviation Instance := (gmap string (@Slot W)).

Lemma bindField_skip (f : StructField) (value : option Instance) (s : St) :
  needsBinding f = false -> bindField' f value s = mkBindResult s value (Ret None).
Proof. unfold needsBinding, bindField. intros ->. reflexivity. Qed.

Lemma bindField_directive (f : StructField) (value : option Instance) (s : St)
    (isExec single : bool) (text : string) :
  needsBinding f = true -> directive f = Some (isExec, single, text) ->
  bindField' f value s = install' f isExec single text value s.
Proof.
  unfold needsBinding, bindField, directive. intros -> H.
  destruct (negb (TagGet (Tag f) "@queryOne" =? "")%string); [congruence|].
  destruct (negb (TagGet (Tag f) "@query" =? "")%string); [congruence|].
  destruct (negb (TagGet (Tag f) "@exec" =? "")%string); congruence.
Qed.

Lemma bindField_no_directive (f : StructField) (value : option Instance) (s : St) :
  needsBinding f = true -> directive f = None ->
  bindField' f value s = mkBindResult s value (Ret (Some (noQueries f))).
Proof.
  unfold needsBinding, bindField, directive. intros -> H.
  destruct (negb (TagGet (Tag f) "@queryOne" =? "")%string); [congruence|].
  destruct (negb (TagGet (Tag f) "@query" =? "")%string); [congruence|].
  destruct (negb (TagGet (Tag f) "@exec" =? "")%string); [congruence|].
  reflexivity.
Qed.

(** [resolveQuery] returns, a nil loader apart: the call of [Get] on it
    panics. *)
Lemma resolveQuery_returns (q fnName : string) (s : St) :
  (exists s1 script err, resolveQuery qLoder q fnName s = (s1, Ret (script, err)))
  \/ (qLoder = None /\ exists s1, resolveQuery qLoder q fnName s = (s1, Panic nilDereference)).
Proof.
  unfold resolveQuery. destruct (CutPrefix q "file:") as [spec [|]];
    [|left; unfold ret; eauto].
  unfold bind, perform, nilCall. destruct qLoder as [l|].
  - left. destruct (Get l _ (world s)) as [w [text|e]]; unfold ret; eauto.
  - right. split; [reflexivity|]. eauto.
Qed.

(** With a loader, [resolveQuery] returns. *)
Lemma resolveQuery_loader_returns (l : @QueryLoader W) (q fnName : string) (s : St) :
  exists s1 script err, resolveQuery (Some l) q fnName s = (s1, Ret (script, err)).
Proof.
  unfold resolveQuery. destruct (CutPrefix q "file:") as [spec [|]]; [|unfold ret; eauto].
  unfold bind, perform.
  destruct (Get l _ (world s)) as [w [text|e]]; unfold ret; eauto.
Qed.

(** Either a branch of the loop body stops the loop and leaves the target
    as it was, or it goes on with one more slot set. *)
Lemma install_cases (f : StructField) (isExec single : bool) (text : string)
    (inst : Instance) (s : St) :
  let r := install' f isExec single text (Some inst) s in
  (boutcome r <> Ret None /\ btarget r = Some inst) \/
  (boutcome r = Ret None /\
   exists script fn,
     runner' (Typ f) isExec single script = Ret fn /\
     btarget r = Some (<[Name f := SFunc (MakeFunc (Typ f) fn)]> inst)).
Proof.
  unfold install.
  destruct (resolveQuery_returns text (Name f) s)
    as [(s1 & script & err & ->)|(_ & s1 & ->)];
    [|simpl; left; split; [discriminate | reflexivity]].
  destruct err as [e|]; simpl; [left; split; [discriminate | reflexivity]|].
  destruct (runner' (Typ f) isExec single script) as [fn|p] eqn:Hr; simpl.
  - right. split; [reflexivity|]. exists script, fn. split; [exact Hr | reflexivity].
  - left. split; [discriminate | reflexivity].
Qed.

Lemma bindField_cases (f : StructField) (inst : Instance) (s : St) :
  let r := bindField' f (Some inst) s in
  (needsBinding f = false /\ r = mkBindResult s (Some inst) (Ret None)) \/
  (needsBinding f = true /\ boutcome r <> Ret None /\ btarget r = Some inst) \/
  (needsBinding f = true /\ boutcome r = Ret None /\
   exists isExec single script fn,
     runner' (Typ f) isExec single script = Ret fn /\
     btarget r = Some (<[Name f := SFunc (MakeFunc (Typ f) fn)]> inst)).
Proof.
  destruct (needsBinding f) eqn:Hn.
  - right. destruct (directive f) as [[[isExec single] text]|] eqn:Hd.
    + cbv zeta. rewrite (bindField_directive _ _ _ _ _ _ Hn Hd).
      destruct (install_cases f isExec single text inst s) as [[H1 H2]|[H1 (sc & fn & H2 & H3)]].
      * left. split; [reflexivity|]. split; assumption.
      * right. split; [reflexivity|]. split; [exact H1|].
        exists isExec, single, sc, fn. split; assumption.
    + cbv zeta. rewrite (bindField_no_directive _ _ _ Hn Hd). simpl.
      left. split; [reflexivity|]. split; [discriminate | reflexivity].
  - left. split; [reflexivity|]. apply bindField_skip. exact Hn.
Qed.

(** The loop over a list of fields in two parts. *)
Lemma bindFields_app (pre rest : list StructField) (value : option Instance) (s : St) :
  bindFields' (pre ++ rest) value s =
  match bindFields' pre value s with
  | mkBindResult s' value' (Ret None) => bindFields' rest value' s'
  | stop => stop
  end.
Proof.
  revert value s. induction pre as [|f pre IH]; intros value s; simpl; [reflexivity|].
  destruct (bindField' f value s) as [s' value' [[e|]|p]]; try reflexivity.
  apply IH.
Qed.

(** [Bind] on a pointer to a struct is the loop over its fields. *)
Lemma Bind_struct (name : string) (fields : list StructField) (value : option Instance)
    (s : St) :
  Bind' {| dstType := TPointer (TStruct name fields); pointee := value |} s =
  bindFields' fields value s.
Proof. reflexivity. Qed.

(** The loop reaching a field after the fields before it went through. *)
Lemma Bind_reaches (name : string) (pre post : list StructField) (f : StructField)
    (value value1 : option Instance) (s s1 : St) :
  bindFields' pre value s = mkBindResult s1 value1 (Ret None) ->
  Bind' {| dstType := TPointer (TStruct name (pre ++ f :: post)); pointee := value |} s =
  match bindField' f value1 s1 with
  | mkBindResult s' value' (Ret None) => bindFields' post value' s'
  | stop => stop
  end.
Proof. intros H. rewrite Bind_struct, bindFields_app, H. reflexivity. Qed.

(** ** Resolution of the query text *)

(** [fsQueryLoader.Get] gives the text of the file under the root path, or
    the error of opening or reading it. *)
Lemma fsQueryLoader_Get_spec {File : Type} (pathJoin : string -> string -> string)
    (Open : string -> W -> W * result File) (ReadAll : File -> W -> W * result string)
    (RootPath name : string) (w : W) :
  fsQueryLoader_Get pathJoin Open ReadAll RootPath name w =
  match Open (pathJoin RootPath name) w with
  | (w1, Err e) => (w1, Err e)
  | (w1, Ok fd) => ReadAll fd w1
  end.
Proof.
  unfold fsQueryLoader_Get.
  destruct (Open (pathJoin RootPath name) w) as [w1 [fd|e]]; [|reflexivity].
  destruct (ReadAll fd w1) as [w2 [b|e]]; reflexivity.
Qed.

Lemma resolveQuery_file (l : @QueryLoader W) (rest fnName : string) (s : St) :
  resolveQuery (Some l) ("file:" +:+ rest) fnName s =
  (let '(w, got) := Get l (fileName rest) (world s) in
   ({| world := w; trace := trace s ++ [EvGet (fileName rest)] |},
    Ret match got with
        | Ok text => (text, None)
        | Err e =>
            ("", Some (Join [Errorf (fnName +:+ ": failed to load file " +:+ "file:" +:+ rest); e]))
        end)).
Proof.
  unfold resolveQuery. rewrite CutPrefix_app.
  replace (if negb (HasSuffix rest ".sql") then rest +:+ ".sql" else rest)
    with (fileName rest) by (unfold fileName; destruct (HasSuffix rest ".sql"); reflexivity).
  unfold bind, perform.
  destruct (Get l (fileName rest) (world s)) as [w [text|e]]; reflexivity.
Qed.

(** The same on a nil loader: the call is made and panics. *)
Lemma resolveQuery_file_nil (rest fnName : string) (s : St) :
  resolveQuery (@None (@QueryLoader W)) ("file:" +:+ rest) fnName s =
  ({| world := world s; trace := trace s ++ [EvGet (fileName rest)] |}, Panic nilDereference).
Proof.
  unfold resolveQuery. rewrite CutPrefix_app.
  replace (if negb (HasSuffix rest ".sql") then rest +:+ ".sql" else rest)
    with (fileName rest) by (unfold fileName; destruct (HasSuffix rest ".sql"); reflexivity).
  reflexivity.
Qed.

Lemma resolveQuery_literal (q fnName : string) (s : St) :
  (forall rest, q <> "file:" +:+ rest) -> resolveQuery qLoder q fnName s = (s, Ret (q, None)).
Proof.
  intros H. unfold resolveQuery. rewrite (CutPrefix_not_found _ _ H). reflexivity.
Qed.

(** C8. A directive text that begins with [file:] is resolved by the loader.
    The text after the prefix stands for one name: itself when it ends in
    [.sql], itself followed by [.sql] when it does not. [Get] is called
    once, with that name, and its text is the query. A text without the
    prefix is the query as it stands, and the loader is not called. When
    [Get] fails for the directive of a field that the loop reaches, [Bind]
    returns an error whose text starts with the name of the field and which
    holds the error of the loader, and the field is not set. *)
Theorem external_reference_resolution :
  (forall rest : string,
     exists name, referenceName rest name
                  /\ forall other, referenceName rest other -> other = name)
  /\ (forall (l : @QueryLoader W) (rest name fnName : string) (s : St),
        referenceName rest name ->
        resolveQuery (Some l) ("file:" +:+ rest) fnName s =
        (let '(w, got) := Get l name (world s) in
         ({| world := w; trace := trace s ++ [EvGet name] |},
          Ret match got with
              | Ok text => (text, None)
              | Err e =>
                  ("", Some (Join [Errorf (fnName +:+ ": failed to load file "
                                           +:+ "file:" +:+ rest); e]))
              end)))
  /\ (forall (q fnName : string) (s : St),
        (forall rest, q <> "file:" +:+ rest) ->
        resolveQuery qLoder q fnName s = (s, Ret (q, None)))
  /\ (forall (l : @QueryLoader W) (name : string) (pre post : list StructField)
             (f : StructField) (value value1 : option Instance) (s s1 : St)
             (isExec single : bool) (rest asked : string) (w : W) (e : GoError),
        qLoder = Some l ->
        needsBinding f = true ->
        directive f = Some (isExec, single, "file:" +:+ rest) ->
        referenceName rest asked ->
        bindFields' pre value s = mkBindResult s1 value1 (Ret None) ->
        Get l asked (world s1) = (w, Err e) ->
        let err := Join [Errorf (Name f +:+ ": failed to load file " +:+ "file:" +:+ rest); e] in
        Bind' {| dstType := TPointer (TStruct name (pre ++ f :: post)); pointee := value |} s =
          mkBindResult {| world := w; trace := trace s1 ++ [EvGet asked] |}
                       value1 (Ret (Some err))
        /\ String.prefix (Name f) (Error err) = true
        /\ errors_Is err e = true).
Proof.
  split; [|split; [|split; [exact resolveQuery_literal|]]].
  - intros rest. exists (fileName rest). split.
    + apply referenceName_fileName. reflexivity.
    + intros other H. apply referenceName_fileName. exact H.
  - intros l rest name fnName s H. apply referenceName_fileName in H. subst name.
    apply resolveQuery_file.
  - intros l name pre post f value value1 s s1 isExec single rest asked w e
           Hl Hn Hd Hname Hpre Hget err.
    apply referenceName_fileName in Hname. subst asked.
    split; [|split].
    + rewrite (Bind_reaches _ _ _ _ _ _ _ _ Hpre).
      rewrite (bindField_directive _ _ _ _ _ _ Hn Hd).
      unfold install. rewrite Hl, resolveQuery_file, Hget. reflexivity.
    + apply prefix_append_append.
    + apply errors_Is_Join_cause.
Qed.

(** ** One directive for each field *)

(** C1, as the code has it. For an exported function-typed field that the
    loop reaches: without any directive text, [Bind] returns an error whose
    text starts with the name of the field; with one or more, [Bind] acts
    on a single one of them, [@queryOne] before [@query] before [@exec], and
    the others are not looked at. *)
Theorem directive_required_and_precedence :
  forall (name : string) (pre post : list StructField) (f : StructField)
         (value value1 : option Instance) (s s1 : St),
    needsBinding f = true ->
    bindFields' pre value s = mkBindResult s1 value1 (Ret None) ->
    let r := Bind' {| dstType := TPointer (TStruct name (pre ++ f :: post));
                      pointee := value |} s in
    let next (b : BindResult) :=
      match b with
      | mkBindResult s' value' (Ret None) => bindFields' post value' s'
      | stop => stop
      end in
    let exec := TagGet (Tag f) "@exec" in
    let queryAll := TagGet (Tag f) "@query" in
    let queryOne := TagGet (Tag f) "@queryOne" in
    (exec = "" -> queryAll = "" -> queryOne = "" ->
       r = mkBindResult s1 value1 (Ret (Some (noQueries f)))
       /\ String.prefix (Name f) (Error (noQueries f)) = true)
    /\ (queryOne <> "" -> r = next (install' f false true queryOne value1 s1))
    /\ (queryOne = "" -> queryAll <> "" ->
          r = next (install' f false false queryAll value1 s1))
    /\ (queryOne = "" -> queryAll = "" -> exec <> "" ->
          r = next (install' f true false exec value1 s1)).
Proof.
  intros name pre post f value value1 s s1 Hn Hpre r next exec queryAll queryOne.
  assert (Hr : r = next (bindField' f value1 s1)).
  { unfold r. rewrite (Bind_reaches _ _ _ _ _ _ _ _ Hpre).
    destruct (bindField' f value1 s1) as [s' value' [[e|]|p]]; reflexivity. }
  assert (Hne : forall x : string, x <> "" -> negb (x =? "")%string = true).
  { intros x Hx. apply negb_true_iff. apply String.eqb_neq. exact Hx. }
  repeat split.
  - rewrite Hr, bindField_no_directive; [reflexivity | exact Hn |].
    unfold directive. fold exec queryAll queryOne. rewrite H, H0, H1. reflexivity.
  - apply prefix_append.
  - intros H1. rewrite Hr. f_equal. apply bindField_directive; [exact Hn|].
    unfold directive. fold queryOne. rewrite (Hne _ H1). reflexivity.
  - intros H1 H2. rewrite Hr. f_equal. apply bindField_directive; [exact Hn|].
    unfold directive. fold queryOne queryAll. rewrite H1, (Hne _ H2). reflexivity.
  - intros H1 H2 H3. rewrite Hr. f_equal. apply bindField_directive; [exact Hn|].
    unfold directive. fold queryOne queryAll exec. rewrite H1, H2, (Hne _ H3). reflexivity.
Qed.

(** ** What the loop leaves in the target *)

Local Abbreviation boundTo' := (boundTo db scanner ctx handle lastInsertIDSupport).

(** The loop body writes to no slot other than the one of its field. *)
Lemma bindField_frame (f : StructField) (value : option Instance) (s : St) (n : string) :
  (needsBinding f = true -> Name f <> n) ->
  slotOf (btarget (bindField' f value s)) n = slotOf value n.
Proof.
  intros Hname. destruct (needsBinding f) eqn:Hn.
  - destruct (directive f) as [[[isExec single] text]|] eqn:Hd.
    + rewrite (bindField_directive _ _ _ _ _ _ Hn Hd).
      destruct value as [inst|].
      * destruct (install_cases f isExec single text inst s)
          as [[_ ->]|[_ (sc & fn & _ & ->)]]; [reflexivity|].
        simpl. apply lookup_insert_ne. exact (Hname eq_refl).
      * unfold install.
        destruct (resolveQuery_returns text (Name f) s)
          as [(s1 & script & err & ->)|(_ & s1 & ->)]; [destruct err|]; reflexivity.
    + rewrite (bindField_no_directive _ _ _ Hn Hd). reflexivity.
  - rewrite (bindField_skip _ _ _ Hn). reflexivity.
Qed.

Lemma bindFields_frame (fields : list StructField) (value : option Instance) (s : St)
    (n : string) :
  (forall g, In g fields -> needsBinding g = true -> Name g <> n) ->
  slotOf (btarget (bindFields' fields value s)) n = slotOf value n.
Proof.
  revert value s. induction fields as [|f fs IH]; intros value s Hname; [reflexivity|].
  assert (Hf : slotOf (btarget (bindField' f value s)) n = slotOf value n).
  { apply bindField_frame. apply Hname. left. reflexivity. }
  simpl. destruct (bindField' f value s) as [s' value' [[e|]|p]]; simpl in *; try exact Hf.
  rewrite IH; [exact Hf|]. intros g Hg. apply Hname. right. exact Hg.
Qed.

(** The loop either goes through all the fields, or stops at the first
    field whose body does not go on. *)
Lemma bindFields_split (fields : list StructField) (value : option Instance) (s : St) :
  let r := bindFields' fields value s in
  boutcome r = Ret None \/
  exists (pre : list StructField) f post s1 value1,
    fields = (pre ++ f :: post)%list /\
    bindFields' pre value s = mkBindResult s1 value1 (Ret None) /\
    r = bindField' f value1 s1 /\
    boutcome r <> Ret None.
Proof.
  revert value s. induction fields as [|f fs IH]; intros value s; [left; reflexivity|].
  simpl. destruct (bindField' f value s) as [s' value' o] eqn:Hf.
  destruct o as [[e|]|p].
  - right. exists [], f, fs, s, value. rewrite Hf. simpl.
    repeat split; discriminate.
  - destruct (IH value' s') as [Hok|(pre & g & post & s1 & v1 & -> & Hpre & Hr & Hstop)].
    + left. exact Hok.
    + right. exists (f :: pre), g, post, s1, v1. simpl. rewrite Hf.
      repeat split; assumption.
  - right. exists [], f, fs, s, value. rewrite Hf. simpl.
    repeat split; discriminate.
Qed.

(** A body that does not go on has set nothing. *)
Lemma bindField_stop (f : StructField) (value : option Instance) (s : St) :
  boutcome (bindField' f value s) <> Ret None ->
  needsBinding f = true /\ btarget (bindField' f value s) = value.
Proof.
  intros Hstop. destruct (needsBinding f) eqn:Hn.
  - split; [reflexivity|].
    destruct (directive f) as [[[isExec single] text]|] eqn:Hd.
    + rewrite (bindField_directive _ _ _ _ _ _ Hn Hd) in *.
      destruct value as [inst|].
      * destruct (install_cases f isExec single text inst s) as [[_ H]|[H _]];
          [exact H | contradiction].
      * unfold install.
        destruct (resolveQuery_returns text (Name f) s)
          as [(s1 & script & err & ->)|(_ & s1 & ->)]; [destruct err|]; reflexivity.
    + rewrite (bindField_no_directive _ _ _ Hn Hd). reflexivity.
  - rewrite (bindField_skip _ _ _ Hn) in Hstop. contradiction.
Qed.

(** After the loop went through a list of fields, each of them that is an
    exported function holds its closure. *)
Lemma bindFields_bound (fields : list StructField) (inst : Instance) (s s1 : St)
    (value1 : option Instance) :
  List.NoDup (map Name (List.filter needsBinding fields)) ->
  bindFields' fields (Some inst) s = mkBindResult s1 value1 (Ret None) ->
  exists inst1, value1 = Some inst1 /\
    forall g, In g fields -> needsBinding g = true -> boundTo' inst1 g.
Proof.
  revert inst s. induction fields as [|f fs IH]; intros inst s Hnd Hrun.
  - simpl in Hrun. injection Hrun as <- <-. exists inst. split; [reflexivity|]. intros g [].
  - simpl in Hrun, Hnd.
    destruct (bindField_cases f inst s) as [[Hn Hf]|[(_ & Hstop & _)|(Hn & _ & Hset)]].
    + rewrite Hf in Hrun. rewrite Hn in Hnd.
      destruct (IH inst s Hnd Hrun) as (inst1 & -> & Hb).
      exists inst1. split; [reflexivity|]. intros g [<-|Hg] Hgn; [congruence|].
      apply Hb; assumption.
    + exfalso. destruct (bindField' f (Some inst) s) as [s' value' [[e|]|p]];
        simpl in Hstop; try discriminate. contradiction.
    + destruct Hset as (isExec & single & script & fn & Hrunner & Htarget).
      destruct (bindField' f (Some inst) s) as [s' value' o] eqn:Hf. simpl in Htarget.
      subst value'. rewrite Hn in Hnd. simpl in Hnd. apply NoDup_cons_iff in Hnd as [Hnotin Hnd].
      destruct o as [[e|]|p]; try discriminate.
      destruct (IH _ s' Hnd Hrun) as (inst1 & -> & Hb).
      exists inst1. split; [reflexivity|]. intros g [<-|Hg] Hgn.
      * exists isExec, single, script, fn. split; [exact Hrunner|].
        assert (Hfr := bindFields_frame fs
                  (Some (<[Name f:=SFunc (MakeFunc (Typ f) fn)]> inst)) s' (Name f)).
        rewrite Hrun in Hfr. simpl in Hfr. rewrite Hfr.
        -- apply lookup_insert_eq.
        -- intros h Hh Hhn Heq. apply Hnotin. rewrite <- Heq.
           apply in_map. apply filter_In. split; assumption.
      * apply Hb; assumption.
Qed.

Lemma NoDup_app_disjoint {A : Type} (l1 l2 : list A) (x : A) :
  List.NoDup (l1 ++ l2) -> In x l1 -> In x l2 -> False.
Proof.
  induction l1 as [|a l1 IH]; simpl; intros Hnd H1 H2; [contradiction|].
  apply NoDup_cons_iff in Hnd as [Hnotin Hnd].
  destruct H1 as [->|H1].
  - apply Hnotin. apply in_or_app. right. exact H2.
  - exact (IH Hnd H1 H2).
Qed.

Lemma NoDup_app_left {A : Type} (l1 l2 : list A) : List.NoDup (l1 ++ l2) -> List.NoDup l1.
Proof.
  induction l1 as [|a l1 IH]; simpl; intros Hnd; [constructor|].
  apply NoDup_cons_iff in Hnd as [Hnotin Hnd]. constructor.
  - intros Hin. apply Hnotin. apply in_or_app. left. exact Hin.
  - exact (IH Hnd).
Qed.

Lemma NoDup_map_injective {A B : Type} (h : A -> B) (l : list A) (x y : A) :
  List.NoDup (map h l) -> In x l -> In y l -> h x = h y -> x = y.
Proof.
  induction l as [|a l IH]; simpl; intros Hnd Hx Hy Heq; [contradiction|].
  apply NoDup_cons_iff in Hnd as [Hnotin Hnd].
  destruct Hx as [->|Hx], Hy as [->|Hy].
  - reflexivity.
  - exfalso. apply Hnotin. rewrite Heq. apply in_map. exact Hy.
  - exfalso. apply Hnotin. rewrite <- Heq. apply in_map. exact Hx.
  - exact (IH Hnd Hx Hy Heq).
Qed.

(** C2, as the code has it. [Bind] on a pointer to a struct either returns
    nil, and then every exported function-typed field holds its closure, or
    it stops at the first field that fails, by an error or by a panic: the
    exported function-typed fields before that one hold their closures, and
    that field and the ones after it are as they were. *)
Theorem Bind_all_or_prefix :
  forall (name : string) (fields : list StructField) (inst : Instance) (s : St),
    List.NoDup (map Name (List.filter needsBinding fields)) ->
    let r := Bind' {| dstType := TPointer (TStruct name fields); pointee := Some inst |} s in
    (boutcome r = Ret None /\
     exists inst', btarget r = Some inst' /\
       forall g, In g fields -> needsBinding g = true -> boundTo' inst' g)
    \/
    (boutcome r <> Ret None /\
     exists (pre : list StructField) f post inst',
       fields = (pre ++ f :: post)%list /\
       needsBinding f = true /\
       btarget r = Some inst' /\
       (forall g, In g pre -> needsBinding g = true -> boundTo' inst' g) /\
       (forall g, In g (f :: post) -> needsBinding g = true ->
                  inst' !! Name g = inst !! Name g)).
Proof.
  intros name fields inst s Hnd r. unfold r. rewrite Bind_struct.
  destruct (bindFields_split fields (Some inst) s)
    as [Hok|(pre & f & post & s1 & v1 & -> & Hpre & Hr & Hstop)].
  - left. split; [exact Hok|].
    destruct (bindFields' fields (Some inst) s) as [s' value' o] eqn:Hrun.
    simpl in Hok. subst o.
    destruct (bindFields_bound _ _ _ _ _ Hnd Hrun) as (inst1 & -> & Hb).
    exists inst1. split; [reflexivity | exact Hb].
  - right. split; [exact Hstop|].
    rewrite List.filter_app, List.map_app in Hnd.
    destruct (bindFields_bound _ _ _ _ _ (NoDup_app_left _ _ Hnd) Hpre) as (inst1 & -> & Hb).
    rewrite Hr in Hstop |- *.
    destruct (bindField_stop _ _ _ Hstop) as [Hn Htarget].
    exists pre, f, post, inst1. repeat split; try assumption.
    intros g Hg Hgn.
    assert (Hfr := bindFields_frame pre (Some inst) s (Name g)).
    rewrite Hpre in Hfr. simpl in Hfr. apply Hfr.
    intros h Hh Hhn Heq.
    apply (NoDup_app_disjoint _ _ (Name g) Hnd).
    + rewrite <- Heq. apply in_map. apply filter_In. split; assumption.
    + apply in_map. apply filter_In. split; assumption.
Qed.

(** C10. [Bind] on a pointer to a struct leaves every field that is not a
    function or not exported as it was, however it ends; and when the
    struct has no other fields, [Bind] returns nil without asking for a
    directive, without a call to the loader, and with the whole struct as
    it was. The fields are those of a struct type of Go: the names other
    than the blank [_] are distinct, and a blank field is not exported. *)
Theorem Bind_leaves_other_fields :
  forall (name : string) (fields : list StructField) (value : option Instance) (s : St),
    List.NoDup (map Name (List.filter (fun f => negb (String.eqb (Name f) "_")) fields)) ->
    (forall f, In f fields -> Name f = "_" -> IsExported f = false) ->
    let r := Bind' {| dstType := TPointer (TStruct name fields); pointee := value |} s in
    (forall f, In f fields -> needsBinding f = false ->
               slotOf (btarget r) (Name f) = slotOf value (Name f))
    /\ ((forall f, In f fields -> needsBinding f = false) ->
        r = mkBindResult s value (Ret None)).
Proof.
  intros name fields value s Hnd Hblank r. unfold r. rewrite Bind_struct. split.
  - intros f Hf Hn. apply bindFields_frame. intros g Hg Hgn Heq.
    assert (Hge : IsExported g = true).
    { unfold needsBinding in Hgn. apply andb_true_iff in Hgn. tauto. }
    assert (Hgb : negb (String.eqb (Name g) "_") = true).
    { apply negb_true_iff. apply String.eqb_neq. intros Hb.
      rewrite (Hblank g Hg Hb) in Hge. discriminate Hge. }
    assert (g = f).
    { apply (NoDup_map_injective Name
               (List.filter (fun f => negb (String.eqb (Name f) "_")) fields));
        try assumption; apply filter_In; split; try assumption.
      rewrite <- Heq. exact Hgb. }
    congruence.
  - clear Hnd Hblank r. revert value s. induction fields as [|f fs IH]; intros value s Hall.
    + reflexivity.
    + simpl. rewrite bindField_skip by (apply Hall; left; reflexivity).
      apply IH. intros g Hg. apply Hall. right. exact Hg.
Qed.

(** ** The closures *)

Local Abbreviation exec' := (exec db ctx handle lastInsertIDSupport).
Local Abbreviation Query' := (Query db scanner ctx handle).
Local Abbreviation boundCall' := (boundCall db scanner ctx handle lastInsertIDSupport).

(** What [exec] does, step by step. *)
Lemma exec_steps (query : string) (args : list GoValue) (s : St) :
  exec' query args s =
  let '(executor, values) := chooseExecutor handle args in
  let called := EvExecContext executor query values in
  match executor with
  | NilHandle => ({| world := world s; trace := trace s ++ [called] |}, Panic nilDereference)
  | Live h =>
      let '(w, r) := ExecContext db h ctx query values (world s) in
      match r with
      | Err e => ({| world := w; trace := trace s ++ [called] |}, Ret (0, 0, Some e))
      | Ok result =>
          if lastInsertIDSupport then
            match LastInsertId result with
            | Err e =>
                ({| world := w; trace := (trace s ++ [called]) ++ [EvLastInsertId] |},
                 Ret (0, 0, Some e))
            | Ok id =>
                ({| world := w;
                    trace := ((trace s ++ [called]) ++ [EvLastInsertId])
                             ++ [EvRowsAffected] |},
                 Ret match RowsAffected result with
                     | Err e => (0, 0, Some e)
                     | Ok affected => (id, affected, None)
                     end)
            end
          else
            ({| world := w; trace := (trace s ++ [called]) ++ [EvRowsAffected] |},
             Ret match RowsAffected result with
                 | Err e => (0, 0, Some e)
                 | Ok affected => (0, affected, None)
                 end)
      end
  end.
Proof.
  unfold exec. destruct (chooseExecutor handle args) as [[h|] values];
    [|reflexivity].
  unfold bind, perform, ret.
  destruct (ExecContext db h ctx query values (world s)) as [w [result|e]];
    [|reflexivity].
  destruct lastInsertIDSupport; simpl.
  - destruct (LastInsertId result); [|reflexivity].
    destruct (RowsAffected result); reflexivity.
  - destruct (RowsAffected result); reflexivity.
Qed.

(** C6, as the code has it. After a statement that ran without an error
    of the database call. With [lastInsertIDSupport] off, [LastInsertId]
    is not called, whatever it would have answered, the number of affected
    rows is read and reported with 0 as identifier, and the only error
    there can be is the one of reading that number. With the setting on,
    the identifier is read first: when that fails the call reports its
    error with 0 and 0 and the number of affected rows is not read; when
    it succeeds the number of affected rows is read and both are
    reported. An error of reading the number of affected rows is reported
    with 0 and 0 under either setting. *)
Theorem exec_reports_counts :
  forall (query : string) (args : list GoValue) (s : St) (executor : ResId)
         (values : list any) (w : W) (result : SqlResult) (ins : list GoType),
    chooseExecutor handle args = (Live executor, values) ->
    ExecContext db executor ctx query values (world s) = (w, Ok result) ->
    let after (reads : list Event) :=
      {| world := w;
         trace := trace s ++ EvExecContext (Live executor) query values :: reads |} in
    let counted (id : Z) : Z * Z * option GoError :=
      match RowsAffected result with
      | Ok affected => (id, affected, None)
      | Err e => (0, 0, Some e)
      end in
    let reports (reads : list Event) (r : Z * Z * option GoError) :=
      let '(id, affected, err) := r in
      exec' query args s = (after reads, Ret r)
      /\ boundCall' (TFunc ins [TInt64; TInt64; TError]) true false query args s =
           Some (after reads, Ret [VInt64 id; VInt64 affected; errorResult err])
      /\ boundCall' (TFunc ins [TInt64; TInt64]) true false query args s =
           Some (after reads,
                 match err with
                 | None => Ret [VInt64 id; VInt64 affected]
                 | Some e => Panic (PanicErr e)
                 end) in
    (lastInsertIDSupport = false -> reports [EvRowsAffected] (counted 0))
    /\ (lastInsertIDSupport = true ->
        match LastInsertId result with
        | Err e => reports [EvLastInsertId] (0, 0, Some e)
        | Ok id => reports [EvLastInsertId; EvRowsAffected] (counted id)
        end).
Proof.
  intros query args s executor values w result ins Hch Hexec after counted reports.
  assert (Hcall : forall reads id affected err,
             exec' query args s = (after reads, Ret (id, affected, err)) ->
             reports reads (id, affected, err)).
  { intros reads id affected err He. unfold reports. split; [exact He|].
    unfold boundCall, runner, MakeFunc, bind. simpl. rewrite He.
    destruct err as [e|]; split; reflexivity. }
  split.
  - intros Hoff.
    assert (He : exec' query args s = (after [EvRowsAffected], Ret (counted 0))).
    { rewrite exec_steps, Hch, Hexec, Hoff. unfold after, counted.
      rewrite <- List.app_assoc. destruct (RowsAffected result); reflexivity. }
    destruct (counted 0) as [[id affected] err]. exact (Hcall _ _ _ _ He).
  - intros Hon. destruct (LastInsertId result) as [id|e] eqn:Hid.
    + assert (He : exec' query args s =
                   (after [EvLastInsertId; EvRowsAffected], Ret (counted id))).
      { rewrite exec_steps, Hch, Hexec, Hon, Hid. unfold after, counted.
        rewrite <- !List.app_assoc. destruct (RowsAffected result); reflexivity. }
      destruct (counted id) as [[id' affected] err]. exact (Hcall _ _ _ _ He).
    + apply Hcall. rewrite exec_steps, Hch, Hexec, Hon, Hid. unfold after.
      rewrite <- List.app_assoc. reflexivity.
Qed.

(** With [lastInsertIDSupport] on, an error of [LastInsertId] ends [exec]
    before the number of affected rows is read. *)
Lemma exec_identifier_error (query : string) (args : list GoValue) (s : St)
    (executor : ResId) (values : list any) (w : W) (result : SqlResult) (e : GoError) :
  chooseExecutor handle args = (Live executor, values) ->
  ExecContext db executor ctx query values (world s) = (w, Ok result) ->
  lastInsertIDSupport = true ->
  LastInsertId result = Err e ->
  exec' query args s =
  ({| world := w;
      trace := trace s ++ [EvExecContext (Live executor) query values; EvLastInsertId] |},
   Ret (0, 0, Some e)).
Proof.
  intros Hch Hexec Hon Hid.
  rewrite exec_steps, Hch, Hexec, Hon, Hid. cbv zeta. rewrite <- List.app_assoc. reflexivity.
Qed.

Lemma assignTo_typed (v : GoValue) (t : GoType) : typeOf v = t -> assignTo v t = Some v.
Proof. intros <-. apply assignTo_same. Qed.

(** A pointer to a value does not go into a result of the type of the
    value, unless that type is an interface. *)
Lemma assignTo_pointer_to (t : GoType) (target : option GoValue) :
  kindOf t <> KPointer -> kindOf t <> KInterface ->
  assignTo (VPtr (TPointer t) target) t = None.
Proof. destruct t; simpl; intros H1 H2; try reflexivity; congruence. Qed.

(** C7, as the code has it. An error with which the database call of a
    bound function ends, as it does when the context given to [Bind] is
    cancelled, comes back as the error result under the three conventions
    that have one, and is raised as a panic under the three that have
    none. *)
Theorem database_error_by_convention :
  forall (query : string) (args : list GoValue) (s : St) (executor : ResId)
         (values : list any) (w : W) (e : GoError) (ins : list GoType) (oType : GoType)
         (single : bool),
    chooseExecutor handle args = (Live executor, values) ->
    (ExecContext db executor ctx query values (world s) = (w, Err e) ->
     let s' := {| world := w; trace := trace s ++ [EvExecContext (Live executor) query values] |} in
     boundCall' (TFunc ins []) true single query args s = Some (s', Panic (PanicErr e))
     /\ boundCall' (TFunc ins [TError]) true single query args s =
          Some (s', Ret [VIface TError (Some (VErr e))])
     /\ boundCall' (TFunc ins [TInt64; TInt64]) true single query args s =
          Some (s', Panic (PanicErr e))
     /\ boundCall' (TFunc ins [TInt64; TInt64; TError]) true single query args s =
          Some (s', Ret [VInt64 0; VInt64 0; VIface TError (Some (VErr e))]))
    /\ (QueryContext db executor ctx query values (world s) = (w, Err e) ->
        let s' := {| world := w; trace := trace s ++ [EvQueryContext (Live executor) query values] |} in
        boundCall' (TFunc ins [oType]) false single query args s =
          Some (s', Panic (PanicErr e))
        /\ boundCall' (TFunc ins [oType; TError]) false single query args s =
             Some (s', Ret [zeroValue oType; VIface TError (Some (VErr e))])).
Proof.
  intros query args s executor values w e ins oType single Hch. split.
  - intros Hexec s'.
    assert (He : exec' query args s = (s', Ret (0, 0, Some e))).
    { rewrite exec_steps, Hch, Hexec. reflexivity. }
    unfold boundCall, runner, MakeFunc, bind. simpl. rewrite He.
    repeat split; reflexivity.
  - intros Hquery s'.
    assert (Hq : Query' query args single oType s = (s', Ret (None, Some e))).
    { unfold Query, bind, perform. rewrite Hch, Hquery. reflexivity. }
    unfold boundCall, runner, MakeFunc, bind. simpl. rewrite Hq. simpl.
    split; [reflexivity|]. rewrite assignTo_zeroValue. reflexivity.
Qed.

(** C3, as the code has it. A [QueryOne] function whose scan reports
    [sql.ErrNoRows]: with a pointer as declared result, the call gives the
    nil pointer and no error; with a declared result that is neither a
    pointer nor an interface, [Query] hands back a pointer to the scanned
    value instead of the value, and the call panics in [reflect.MakeFunc]
    under both conventions. *)
Theorem queryOne_no_rows :
  forall (query : string) (args : list GoValue) (s : St) (executor : ResId)
         (values : list any) (w1 w2 : W) (rows : Rows) (target : GoValue) (e : GoError)
         (ins : list GoType) (elem oType : GoType),
    chooseExecutor handle args = (Live executor, values) ->
    QueryContext db executor ctx query values (world s) = (w1, Ok rows) ->
    errors_Is e ErrNoRows = true ->
    let called := EvQueryContext (Live executor) query values in
    (ScanOne scanner (zeroValue elem) rows w1 = (w2, (target, Some e)) ->
     let s' := {| world := w2; trace := trace s ++ [called; EvScanOne (New elem)] |} in
     boundCall' (TFunc ins [TPointer elem]) false true query args s =
       Some (s', Ret [VPtr (TPointer elem) None])
     /\ boundCall' (TFunc ins [TPointer elem; TError]) false true query args s =
          Some (s', Ret [VPtr (TPointer elem) None; VIface TError None]))
    /\ (kindOf oType <> KPointer -> kindOf oType <> KInterface ->
        ScanRow scanner (zeroValue oType) rows w1 = (w2, (target, Some e)) ->
        let s' := {| world := w2; trace := trace s ++ [called; EvScanRow (New oType)] |} in
        let refused :=
          PanicStr ("reflect.MakeFunc: value of type " +:+ typeString (TPointer oType)
                    +:+ " is not assignable to type " +:+ typeString oType) in
        Query' query args true oType s =
          (s', Ret (Some (VPtr (TPointer oType) (Some target)), None))
        /\ boundCall' (TFunc ins [oType]) false true query args s = Some (s', Panic refused)
        /\ boundCall' (TFunc ins [oType; TError]) false true query args s =
             Some (s', Panic refused)).
Proof.
  intros query args s executor values w1 w2 rows target e ins elem oType Hch Hquery Hno called.
  split.
  - intros Hscan s'.
    assert (Hq : Query' query args true (TPointer elem) s =
                 (s', Ret (Some (VPtr (TPointer elem) None), None))).
    { unfold Query, bind, perform. rewrite Hch, Hquery. simpl. rewrite Hscan. simpl.
      rewrite Hno, <- List.app_assoc. reflexivity. }
    unfold boundCall, runner, MakeFunc, bind. simpl. rewrite Hq. simpl.
    rewrite (assignTo_typed (VPtr (TPointer elem) None) (TPointer elem) eq_refl).
    split; reflexivity.
  - intros Hk1 Hk2 Hscan s' refused.
    assert (Hq : Query' query args true oType s =
                 (s', Ret (Some (VPtr (TPointer oType) (Some target)), None))).
    { unfold Query, bind, perform. rewrite Hch, Hquery. simpl.
      replace (Kind_eqb (kindOf oType) KPointer) with false
        by (destruct oType; simpl in *; congruence).
      cbv iota. simpl. rewrite Hscan. simpl. rewrite Hno, <- List.app_assoc. reflexivity. }
    split; [exact Hq|].
    unfold boundCall, runner, MakeFunc, bind. simpl. rewrite Hq. simpl.
    rewrite (assignTo_pointer_to oType (Some target) Hk1 Hk2).
    split; reflexivity.
Qed.

(** C9. A [QueryMany] function with a slice as declared result, whose scan
    meets no row: the call gives the slice of length zero that [Query]
    made with [reflect.MakeSlice], which is not the nil slice, and no
    error. *)
Theorem queryMany_no_rows_empty_slice :
  forall (query : string) (args : list GoValue) (s : St) (executor : ResId)
         (values : list any) (w1 w2 : W) (rows : Rows) (ins : list GoType) (elem : GoType),
    chooseExecutor handle args = (Live executor, values) ->
    QueryContext db executor ctx query values (world s) = (w1, Ok rows) ->
    (forall d, ScanAll scanner d rows w1 = (w2, (resliced d, None))) ->
    let oType := TSlice elem in
    let empty := VSlice oType (Some []) in
    let s' := {| world := w2;
                 trace := trace s ++ [EvQueryContext (Live executor) query values;
                                      EvScanAll (VPtr (TPointer oType) (Some empty))] |} in
    boundCall' (TFunc ins [oType]) false false query args s = Some (s', Ret [empty])
    /\ boundCall' (TFunc ins [oType; TError]) false false query args s =
         Some (s', Ret [empty; VIface TError None])
    /\ empty <> zeroValue oType.
Proof.
  intros query args s executor values w1 w2 rows ins elem Hch Hquery Hscan oType empty s'.
  assert (Hq : Query' query args false oType s = (s', Ret (Some empty, None))).
  { unfold Query, bind, perform. rewrite Hch, Hquery. simpl. rewrite Hscan. simpl.
    rewrite <- List.app_assoc. reflexivity. }
  unfold boundCall, runner, MakeFunc, bind. simpl. rewrite Hq. simpl.
  rewrite (assignTo_typed empty oType eq_refl).
  repeat split. discriminate.
Qed.

(** ** The resource a call runs on *)

Ltac case_all :=
  repeat match goal with
         | |- context [match ?x with _ => _ end] =>
             lazymatch x with
             | context [match _ with _ => _ end] => fail
             | _ => destruct x; simpl
             end
         end.



(** The state after a call of a bound function is the state after its
    [exec] or its [Query]. *)
Lemma boundCall_state (typ : GoType) (isExec single : bool) (query : string)
    (fn : list GoValue -> M (list Value)) (args : list GoValue) (s : St) :
  runner' typ isExec single query = Ret fn ->
  if isExec then fst (MakeFunc typ fn args s) = fst (exec' query args s)
  else exists oType,
         Out typ 0 = Some oType
         /\ fst (MakeFunc typ fn args s) = fst (Query' query args single oType s).
Proof.
  unfold runner. destruct isExec.
  - destruct (NumOut typ) as [|[|[|[|n]]]]; intros Hr; try discriminate;
      injection Hr as <-; unfold MakeFunc, bind, ret, panic;
      destruct (exec' query args s) as [s1 [[[id affected] err]|p]]; simpl;
      try reflexivity; case_all; reflexivity.
  - destruct (NumOut typ) as [|[|[|n]]] eqn:Hn; intros Hr; try discriminate;
      injection Hr as <-;
      (destruct (Out typ 0) as [oType|] eqn:Ho;
       [| destruct typ; try discriminate; destruct outs; discriminate]);
      exists oType; (split; [reflexivity|]); unfold MakeFunc, bind, ret, panic; simpl;
      destruct (Query' query args single oType s) as [s1 [[rows err]|p]]; simpl;
      try reflexivity; case_all; reflexivity.
Qed.

(** A call on the nil pointer of a handle type panics, under every
    convention. *)
Lemma boundCall_nil (typ : GoType) (isExec single : bool) (query : string)
    (fn : list GoValue -> M (list Value)) (args : list GoValue) (s : St)
    (values : list any) :
  runner' typ isExec single query = Ret fn ->
  chooseExecutor handle args = (NilHandle, values) ->
  MakeFunc typ fn args s =
  ({| world := world s;
      trace := trace s ++ [if isExec then EvExecContext NilHandle query values
                           else EvQueryContext NilHandle query values] |},
   Panic nilDereference).
Proof.
  intros Hr Hch.
  assert (He : exec' query args s =
               ({| world := world s;
                   trace := trace s ++ [EvExecContext NilHandle query values] |},
                Panic nilDereference)).
  { rewrite exec_steps, Hch. reflexivity. }
  assert (Hq : forall oType, Query' query args single oType s =
               ({| world := world s;
                   trace := trace s ++ [EvQueryContext NilHandle query values] |},
                Panic nilDereference)).
  { intros oType. unfold Query. rewrite Hch. reflexivity. }
  unfold runner in Hr. destruct isExec.
  - destruct (NumOut typ) as [|[|[|[|n]]]]; try discriminate;
      injection Hr as <-; unfold MakeFunc, bind; rewrite He; reflexivity.
  - destruct (NumOut typ) as [|[|[|n]]] eqn:Hn; try discriminate;
      injection Hr as <-;
      (destruct (Out typ 0) as [oType|] eqn:Ho;
       [| destruct typ; try discriminate; destruct outs; discriminate]);
      unfold MakeFunc, bind; rewrite Hq; reflexivity.
Qed.


(** ** The check of the declared results *)

Lemma runner_by_count (typ : GoType) (isExec single : bool) (query : string) :
  (supportedCount isExec (NumOut typ) = true ->
   exists fn, runner' typ isExec single query = Ret fn)
  /\ (supportedCount isExec (NumOut typ) = false ->
      runner' typ isExec single query = Panic (unsupported typ)).
Proof.
  unfold runner, supportedCount. destruct isExec.
  - destruct (NumOut typ) as [|[|[|[|n]]]]; simpl; split; intros H;
      try discriminate; eauto.
  - destruct (NumOut typ) as [|[|[|n]]]; simpl; split; intros H;
      try discriminate; eauto.
Qed.

(** C4, as the code has it. [runner] looks at the number of declared
    results only. A field that the loop reaches with a resolved directive
    makes [Bind] panic when that number has no case (more than three for
    [@exec]; none, or more than two, for [@query] and [@queryOne]); with
    any other number the field is set, whatever the types of its results. *)
Theorem result_shape_checked_by_count :
  forall (name : string) (pre post : list StructField) (f : StructField)
         (value : option Instance) (inst1 : Instance) (s s1 s2 : St)
         (isExec single : bool) (text script : string),
    needsBinding f = true ->
    directive f = Some (isExec, single, text) ->
    bindFields' pre value s = mkBindResult s1 (Some inst1) (Ret None) ->
    resolveQuery qLoder text (Name f) s1 = (s2, Ret (script, None)) ->
    let r := Bind' {| dstType := TPointer (TStruct name (pre ++ f :: post));
                      pointee := value |} s in
    (supportedCount isExec (NumOut (Typ f)) = false ->
       r = mkBindResult s2 (Some inst1) (Panic (unsupported (Typ f))))
    /\ (supportedCount isExec (NumOut (Typ f)) = true ->
        exists fn,
          runner' (Typ f) isExec single script = Ret fn /\
          r = bindFields' post (Some (<[Name f := SFunc (MakeFunc (Typ f) fn)]> inst1)) s2).
Proof.
  intros name pre post f value inst1 s s1 s2 isExec single text script
         Hn Hd Hpre Hres r.
  assert (Hr : r = match install' f isExec single text (Some inst1) s1 with
                   | mkBindResult s' value' (Ret None) => bindFields' post value' s'
                   | stop => stop
                   end).
  { unfold r. rewrite (Bind_reaches _ _ _ _ _ _ _ _ Hpre).
    rewrite (bindField_directive _ _ _ _ _ _ Hn Hd). reflexivity. }
  destruct (runner_by_count (Typ f) isExec single script) as [Hyes Hno].
  unfold install in Hr. rewrite Hres in Hr. split.
  - intros Hc. rewrite (Hno Hc) in Hr. exact Hr.
  - intros Hc. destruct (Hyes Hc) as [fn Hfn]. exists fn. split; [exact Hfn|].
    rewrite Hfn in Hr. exact Hr.
Qed.
End Properties.

(** ** The properties on concrete inputs *)

Section Examples.

Import Demo Cases.

(** C1 fails as stated: a field with two directives is bound, and [Bind]
    returns nil. *)
Lemma several_directives_accepted :
  needsBinding Both = true /\
  TagGet (Tag Both) "@exec" <> "" /\
  TagGet (Tag Both) "@query" <> "" /\
  Bind db scanner false (Live 0%nat) (Some loader) true (Some (target "Repo" [Both])) s0 =
    mkBindResult s0 (btarget (bindDemo false [Both])) (Ret None) /\
  ~ (exists e, boutcome (bindDemo false [Both]) = Ret (Some e)).
Proof.
  split; [reflexivity|]. split; [discriminate|]. split; [discriminate|].
  split; [reflexivity|]. intros [e H]. discriminate H.
Qed.

(** A field without a directive, and fields with three, two and one, after
    a first field that is bound. *)
Lemma directive_required_and_precedence_witness :
  boutcome (bindDemo false [AddUser; Orphan]) =
    Ret (Some (Errorf "Orphan: function is defined but does not have any queries"))
  /\ boutcome (bindDemo false [AddUser; Ubrig]) =
       Ret (Some (Errorf "Übrig: function is defined but does not have any queries"))
  /\ boutcome (bindDemo false [AddUser; AllThree]) = Ret None
  /\ boutcome (bindDemo false [AddUser; Both]) = Ret None
  /\ boutcome (bindDemo false [AddUser; InsertUserQueryLoader]) = Ret None.
Proof.
  assert (Hpre : forall fs,
             bindFields db scanner false (Live 0%nat) (Some loader) true [AddUser]
               (Some (emptyRepo (AddUser :: fs))) s0 =
             mkBindResult s0
               (btarget (bindFields db scanner false (Live 0%nat) (Some loader) true [AddUser]
                           (Some (emptyRepo (AddUser :: fs))) s0))
               (Ret None)) by (intros fs; reflexivity).
  split; [|split; [|split; [|split]]].
  - destruct (directive_required_and_precedence db scanner false (Live 0%nat) (Some loader) true
                "Repo" [AddUser] [] Orphan _ _ s0 s0 eq_refl (Hpre [Orphan]))
      as (H & _).
    destruct (H eq_refl eq_refl eq_refl) as [Hr _].
    unfold bindDemo, target. simpl app in Hr. rewrite Hr. reflexivity.
  - destruct (directive_required_and_precedence db scanner false (Live 0%nat) (Some loader) true
                "Repo" [AddUser] [] Ubrig _ _ s0 s0 eq_refl (Hpre [Ubrig]))
      as (H & _).
    destruct (H eq_refl eq_refl eq_refl) as [Hr _].
    unfold bindDemo, target. simpl app in Hr. rewrite Hr. reflexivity.
  - destruct (directive_required_and_precedence db scanner false (Live 0%nat) (Some loader) true
                "Repo" [AddUser] [] AllThree _ _ s0 s0 eq_refl (Hpre [AllThree]))
      as (_ & H & _).
    unfold bindDemo, target. simpl app in H. rewrite H; [reflexivity | discriminate].
  - destruct (directive_required_and_precedence db scanner false (Live 0%nat) (Some loader) true
                "Repo" [AddUser] [] Both _ _ s0 s0 eq_refl (Hpre [Both]))
      as (_ & _ & H & _).
    unfold bindDemo, target. simpl app in H.
    rewrite H; [reflexivity | reflexivity | discriminate].
  - destruct (directive_required_and_precedence db scanner false (Live 0%nat) (Some loader) true
                "Repo" [AddUser] [] InsertUserQueryLoader _ _ s0 s0 eq_refl
                (Hpre [InsertUserQueryLoader]))
      as (_ & _ & _ & H).
    unfold bindDemo, target. simpl app in H.
    rewrite H; [reflexivity | reflexivity | reflexivity | discriminate].
Defined.

(** C2 fails as stated: [Bind] returns an error for the second field, and
    the first field holds a function that runs the statement. *)
Lemma failed_Bind_leaves_bound_field :
  let r := bindDemo false [AddUser; Orphan] in
  boutcome r = Ret (Some (noQueries Orphan)) /\
  slotOf (pointee (target "Repo" [AddUser; Orphan])) "AddUser" =
    Some (SData (VNilFunc (Typ AddUser))) /\
  callField r "AddUser" [VString "john"; VInt 65] =
    Some ({| world := 1%nat;
             trace := [EvExecContext (Live 0%nat) "insert into users(name, age) values ($1, $2)"
                         [Some (VString "john"); Some (VInt 65)];
                       EvLastInsertId; EvRowsAffected] |},
          Ret [VInt64 7; VInt64 1; VIface TError None]).
Proof. repeat split. Qed.

(** A struct that is bound as a whole, and one whose second field stops
    the loop. *)
Lemma Bind_all_or_prefix_witness :
  (exists inst',
     btarget (bindDemo false [AddUser; Uber; Table]) = Some inst' /\
     boundTo db scanner false (Live 0%nat) true inst' AddUser /\
     boundTo db scanner false (Live 0%nat) true inst' Uber)
  /\ (exists (pre : list StructField) f post inst',
        [AddUser; Orphan; SelectUser] = pre ++ f :: post /\
        needsBinding f = true /\
        btarget (bindDemo false [AddUser; Orphan; SelectUser]) = Some inst' /\
        (forall g, In g pre -> needsBinding g = true ->
                   boundTo db scanner false (Live 0%nat) true inst' g) /\
        (forall g, In g (f :: post) -> needsBinding g = true ->
                   inst' !! Name g = emptyRepo [AddUser; Orphan; SelectUser] !! Name g)).
Proof.
  split.
  - destruct (Bind_all_or_prefix db scanner false (Live 0%nat) (Some loader) true "Repo"
                [AddUser; Uber; Table] (emptyRepo [AddUser; Uber; Table]) s0)
      as [(_ & inst' & Ht & Hb)|(Hstop & _)].
    + repeat constructor; simpl; intuition discriminate.
    + exists inst'. split; [exact Ht|]. split; apply Hb; simpl; auto.
    + exfalso. apply Hstop. reflexivity.
  - destruct (Bind_all_or_prefix db scanner false (Live 0%nat) (Some loader) true "Repo"
                [AddUser; Orphan; SelectUser] (emptyRepo [AddUser; Orphan; SelectUser]) s0)
      as [(Hok & _)|(_ & H)].
    + repeat constructor; simpl; intuition discriminate.
    + discriminate Hok.
    + exact H.
Defined.

(** [SelectUser] of the tests, and the same function with [User] by value,
    on a table without the row. *)
Lemma queryOne_no_rows_witness :
  let q := "select * from users where id = $1" in
  let called := EvQueryContext (Live 0%nat) q [Some (VInt64 3)] in
  boundCall db scanner false (Live 0%nat) true (TFunc [TInt64] [TPointer User; TError])
            false true q [VInt64 3] s0 =
    Some ({| world := 1%nat; trace := [called; EvScanOne (New User)] |},
          Ret [VPtr (TPointer User) None; VIface TError None])
  /\ boundCall db scanner false (Live 0%nat) true (TFunc [TInt64] [User; TError])
               false true q [VInt64 3] s0 =
       Some ({| world := 1%nat; trace := [called; EvScanRow (New User)] |},
             Panic (PanicStr
                      "reflect.MakeFunc: value of type *User is not assignable to type User")).
Proof.
  intros q called.
  destruct (queryOne_no_rows db scanner false (Live 0%nat) true q [VInt64 3] s0 0%nat
              [Some (VInt64 3)] 1%nat 1%nat [] (zeroValue User) noRows [TInt64] User User
              eq_refl eq_refl eq_refl) as [Hptr Hval].
  split.
  - exact (proj2 (Hptr eq_refl)).
  - refine (proj2 (proj2 (Hval _ _ eq_refl))); discriminate.
Defined.

(** C4 fails as stated: a statement function declared with a [string]
    result is bound, and the first call runs the statement and then panics
    on the type of the result. *)
Lemma result_type_found_at_call :
  Typ Purge = TFunc [] [TString] /\
  directive Purge = Some (true, false, "delete from users") /\
  boutcome (bindDemo false [Purge]) = Ret None /\
  callField (bindDemo false [Purge]) "Purge" [] =
    Some ({| world := 1%nat;
             trace := [EvExecContext (Live 0%nat) "delete from users" [];
                       EvLastInsertId; EvRowsAffected] |},
          Panic (PanicStr
                   "reflect.MakeFunc: value of type error is not assignable to type string")).
Proof. repeat split. Qed.

(** Four results on a statement, and one result of type [string]. *)
Lemma result_shape_checked_by_count_witness :
  bindDemo false [TooMany] =
    mkBindResult s0 (Some (emptyRepo [TooMany]))
      (Panic (PanicErr (Errorf "func() (int64, int64, int64, error): unsupported return type")))
  /\ boutcome (bindDemo false [Purge]) = Ret None.
Proof.
  split.
  - destruct (result_shape_checked_by_count db scanner false (Live 0%nat) (Some loader) true
                "Repo" [] [] TooMany (Some (emptyRepo [TooMany])) (emptyRepo [TooMany])
                s0 s0 s0 true false "delete from users" "delete from users"
                eq_refl eq_refl eq_refl eq_refl) as [H _].
    exact (H eq_refl).
  - destruct (result_shape_checked_by_count db scanner false (Live 0%nat) (Some loader) true
                "Repo" [] [] Purge (Some (emptyRepo [Purge])) (emptyRepo [Purge])
                s0 s0 s0 true false "delete from users" "delete from users"
                eq_refl eq_refl eq_refl eq_refl) as [_ H].
    destruct (H eq_refl) as (fn & _ & Hr).
    unfold bindDemo, target. simpl app in Hr. rewrite Hr. reflexivity.
Defined.


(** C6 fails as stated: on a database without generated identifiers and
    with [lastInsertIDSupport] on, the statement runs without an error, and
    the call reports the error of [LastInsertId] without reading the number
    of affected rows, which is there. *)
Lemma affected_rows_not_read :
  let q := "insert into users(name, age) values ($1, $2)" in
  let values := [Some (VString "john"); Some (VInt 65)] in
  let unsupported := Errorf "LastInsertId is not supported by this driver" in
  ExecContext dbNoIds 0%nat false q values (world s0) =
    (1%nat, Ok {| LastInsertId := Err unsupported; RowsAffected := Ok 1 |})
  /\ boundCall dbNoIds scanner false (Live 0%nat) true (Typ AddUser) true false q
                [VString "john"; VInt 65] s0 =
       Some ({| world := 1%nat;
                trace := [EvExecContext (Live 0%nat) q values; EvLastInsertId] |},
             Ret [VInt64 0; VInt64 0; VIface TError (Some (VErr unsupported))]).
Proof. split; reflexivity. Qed.

(** [AddUser] of the tests on a database without generated identifiers,
    with the support off and with it on, and on a database with them, with
    the support on. *)
Lemma exec_reports_counts_witness :
  let q := "insert into users(name, age) values ($1, $2)" in
  let args := [VString "john"; VInt 65] in
  let called := EvExecContext (Live 0%nat) q [Some (VString "john"); Some (VInt 65)] in
  let unsupported := Errorf "LastInsertId is not supported by this driver" in
  boundCall dbNoIds scanner false (Live 0%nat) false (Typ AddUser) true false q args s0 =
    Some ({| world := 1%nat; trace := [called; EvRowsAffected] |},
          Ret [VInt64 0; VInt64 1; VIface TError None])
  /\ boundCall dbNoIds scanner false (Live 0%nat) true (Typ AddUser) true false q args s0 =
       Some ({| world := 1%nat; trace := [called; EvLastInsertId] |},
             Ret [VInt64 0; VInt64 0; VIface TError (Some (VErr unsupported))])
  /\ boundCall db scanner false (Live 0%nat) true (Typ AddUser) true false q args s0 =
       Some ({| world := 1%nat; trace := [called; EvLastInsertId; EvRowsAffected] |},
             Ret [VInt64 7; VInt64 1; VIface TError None]).
Proof.
  intros q args called unsupported. split; [|split].
  - destruct (exec_reports_counts dbNoIds scanner false (Live 0%nat) false q args s0 0%nat
                [Some (VString "john"); Some (VInt 65)] 1%nat
                {| LastInsertId := Err unsupported; RowsAffected := Ok 1 |}
                [TString; TInt] eq_refl eq_refl) as [H _].
    exact (proj1 (proj2 (H eq_refl))).
  - destruct (exec_reports_counts dbNoIds scanner false (Live 0%nat) true q args s0 0%nat
                [Some (VString "john"); Some (VInt 65)] 1%nat
                {| LastInsertId := Err unsupported; RowsAffected := Ok 1 |}
                [TString; TInt] eq_refl eq_refl) as [_ H].
    exact (proj1 (proj2 (H eq_refl))).
  - destruct (exec_reports_counts db scanner false (Live 0%nat) true q args s0 0%nat
                [Some (VString "john"); Some (VInt 65)] 1%nat
                {| LastInsertId := Ok 7; RowsAffected := Ok 1 |}
                [TString; TInt] eq_refl eq_refl) as [_ H].
    exact (proj1 (proj2 (H eq_refl))).
Defined.

(** C7 fails as stated: with the context cancelled, a call of a function
    declared without results panics with the cancellation error. *)
Lemma cancellation_panics :
  Typ Reset = TFunc [] [] /\
  boutcome (bindDemo true [Reset]) = Ret None /\
  callField (bindDemo true [Reset]) "Reset" [] =
    Some ({| world := 1%nat; trace := [EvExecContext (Live 0%nat) "delete from users" []] |},
          Panic (PanicErr Canceled)).
Proof. repeat split. Qed.

(** The six conventions under a cancelled context. *)
Lemma database_error_by_convention_witness :
  let q := "delete from users" in
  let s1 := {| world := 1%nat; trace := [EvExecContext (Live 0%nat) q []] |} in
  let s2 := {| world := 1%nat; trace := [EvQueryContext (Live 0%nat) q []] |} in
  (boundCall db scanner true (Live 0%nat) true (TFunc [] []) true false q [] s0 =
     Some (s1, Panic (PanicErr Canceled))
   /\ boundCall db scanner true (Live 0%nat) true (TFunc [] [TError]) true false q [] s0 =
        Some (s1, Ret [VIface TError (Some (VErr Canceled))])
   /\ boundCall db scanner true (Live 0%nat) true (TFunc [] [TInt64; TInt64]) true false q [] s0 =
        Some (s1, Panic (PanicErr Canceled))
   /\ boundCall db scanner true (Live 0%nat) true (TFunc [] [TInt64; TInt64; TError])
                true false q [] s0 =
        Some (s1, Ret [VInt64 0; VInt64 0; VIface TError (Some (VErr Canceled))]))
  /\ (boundCall db scanner true (Live 0%nat) true (TFunc [] [TPointer User]) false true q [] s0 =
        Some (s2, Panic (PanicErr Canceled))
      /\ boundCall db scanner true (Live 0%nat) true (TFunc [] [TPointer User; TError])
                   false true q [] s0 =
           Some (s2, Ret [VPtr (TPointer User) None; VIface TError (Some (VErr Canceled))])).
Proof.
  intros q s1 s2.
  destruct (database_error_by_convention db scanner true (Live 0%nat) true q [] s0 0%nat []
              1%nat Canceled [] (TPointer User) true eq_refl) as [_ Hquery].
  destruct (database_error_by_convention db scanner true (Live 0%nat) true q [] s0 0%nat []
              1%nat Canceled [] (TPointer User) false eq_refl) as [Hexec _].
  split.
  - exact (Hexec eq_refl).
  - exact (Hquery eq_refl).
Defined.

(** The file of the tests, named without and with its extension, a literal
    query, and a file that is missing. *)
Lemma external_reference_resolution_witness :
  referenceName "insert_user_steve" "insert_user_steve.sql"
  /\ referenceName "insert_user_steve.sql" "insert_user_steve.sql"
  /\ resolveQuery (Some loader) "file:insert_user_steve" "InsertUserQueryLoader" s0 =
       ({| world := 1%nat; trace := [EvGet "insert_user_steve.sql"] |},
        Ret ("insert into users(name, age) values ('steve', 30)", None))
  /\ resolveQuery (Some loader) "file:insert_user_steve.sql" "InsertUserQueryLoader" s0 =
       ({| world := 1%nat; trace := [EvGet "insert_user_steve.sql"] |},
        Ret ("insert into users(name, age) values ('steve', 30)", None))
  /\ resolveQuery (Some loader) "select * from users" "SelectAllUsers" s0 =
       (s0, Ret ("select * from users", None))
  /\ bindDemo false [Table; Missing; AddUser] =
       mkBindResult {| world := 1%nat; trace := [EvGet "missing.sql"] |}
         (Some (emptyRepo [Table; Missing; AddUser]))
         (Ret (Some (Join [Errorf "Missing: failed to load file file:missing"; notExist]))).
Proof.
  destruct (external_reference_resolution db scanner false (Live 0%nat) (Some loader) true)
    as (_ & Hfile & Hliteral & Hbind).
  assert (Hshort : forall rest, HasSuffix rest ".sql" = false ->
                                referenceName rest (rest +:+ ".sql")).
  { intros rest E. right. split; [|reflexivity]. intros base ->.
    rewrite HasSuffix_append in E. discriminate E. }
  assert (Hlong : referenceName "insert_user_steve.sql" "insert_user_steve.sql").
  { left. split; [exists "insert_user_steve"|]; reflexivity. }
  split; [exact (Hshort "insert_user_steve" eq_refl)|].
  split; [exact Hlong|].
  split; [exact (Hfile loader "insert_user_steve" _ "InsertUserQueryLoader" s0
                   (Hshort "insert_user_steve" eq_refl))|].
  split; [exact (Hfile loader "insert_user_steve.sql" _ "InsertUserQueryLoader" s0 Hlong)|].
  split.
  - apply Hliteral. intros rest H. discriminate H.
  - exact (proj1 (Hbind loader "Repo" [Table] [AddUser] Missing
                    (Some (emptyRepo [Table; Missing; AddUser]))
                    (Some (emptyRepo [Table; Missing; AddUser]))
                    s0 s0 true false "missing" _ 1%nat notExist
                    eq_refl eq_refl eq_refl (Hshort "missing" eq_refl) eq_refl eq_refl)).
Defined.

(** [SelectAllUsers] of the tests on an empty table. *)
Lemma queryMany_no_rows_empty_slice_witness :
  let q := "select * from users" in
  let users := TSlice (TPointer User) in
  boundCall db scanner false (Live 0%nat) true (TFunc [] [users]) false false q [] s0 =
    Some ({| world := 1%nat;
             trace := [EvQueryContext (Live 0%nat) q [];
                       EvScanAll (VPtr (TPointer users) (Some (VSlice users (Some []))))] |},
          Ret [VSlice users (Some [])]).
Proof.
  intros q users.
  refine (proj1 (queryMany_no_rows_empty_slice db scanner false (Live 0%nat) true q [] s0 0%nat []
                   1%nat 1%nat [] [] (TPointer User) eq_refl eq_refl _)).
  intros d. destruct d as [ | | | | | | | | t [items|] | | ]; reflexivity.
Defined.

(** A data field, an unexported function and two blank fields next to
    fields that are bound, and a struct with nothing to bind. *)
Lemma Bind_leaves_other_fields_witness :
  slotOf (btarget (bindDemo false [Table; AddUser; helper; blank; blank; Uber; Orphan]))
         "Table" = Some (SData (VString ""))
  /\ slotOf (btarget (bindDemo false [Table; AddUser; helper; blank; blank; Uber; Orphan]))
            "helper" = Some (SData (VNilFunc (TFunc [] [TError])))
  /\ bindDemo false [Table; helper; blank] =
       mkBindResult s0 (Some (emptyRepo [Table; helper; blank])) (Ret None).
Proof.
  destruct (Bind_leaves_other_fields db scanner false (Live 0%nat) (Some loader) true "Repo"
              [Table; AddUser; helper; blank; blank; Uber; Orphan]
              (Some (emptyRepo [Table; AddUser; helper; blank; blank; Uber; Orphan])) s0)
    as [Hframe _].
  { repeat constructor; simpl; intuition discriminate. }
  { intros f Hf Hb. simpl in Hf.
    repeat (destruct Hf as [<-|Hf]; [first [discriminate Hb | reflexivity]|]).
    destruct Hf. }
  destruct (Bind_leaves_other_fields db scanner false (Live 0%nat) (Some loader) true "Repo"
              [Table; helper; blank] (Some (emptyRepo [Table; helper; blank])) s0)
    as [_ Hnone].
  { repeat constructor; simpl; intuition discriminate. }
  { intros f Hf Hb. simpl in Hf.
    repeat (destruct Hf as [<-|Hf]; [first [discriminate Hb | reflexivity]|]).
    destruct Hf. }
  split; [|split].
  - exact (Hframe Table (or_introl eq_refl) eq_refl).
  - exact (Hframe helper (or_intror (or_intror (or_introl eq_refl))) eq_refl).
  - apply Hnone. intros f [<-|[<-|[<-|[]]]]; reflexivity.
Defined.
End Examples.

(** * Further properties *)

Section MoreProperties.

Context {W Rows Context : Type}.
Variable db : @Database W Rows Context.
Variable scanner : @Scanner W Rows.
Variable ctx : Context.
Variable handle : Executor.
Variable qLoder : option (@QueryLoader W).
Variable lastInsertIDSupport : bool.

Local Abbreviation runner2 := (runner db scanner ctx handle lastInsertIDSupport).
Local Abbreviation install2 := (install db scanner ctx handle qLoder lastInsertIDSupport).
Local Abbreviation bindField2 := (bindField db scanner ctx handle qLoder lastInsertIDSupport).
Local Abbreviation bindFields2 := (bindFields db scanner ctx handle qLoder lastInsertIDSupport).
Local Abbreviation Bind2 d := (Bind db scanner ctx handle qLoder lastInsertIDSupport (Some d)).
Local Abbreviation exec2 := (exec db ctx handle lastInsertIDSupport).
Local Abbreviation Query2 := (Query db scanner ctx handle).
Local Abbreviation boundCall2 := (boundCall db scanner ctx handle lastInsertIDSupport).
Local Abbreviation Target := (gmap string (@Slot W)).

(** ** The target of [Bind] *)

(** X1. [Bind] goes into the fields only for a pointer to a struct. On the
    nil interface, which has no type, it panics. For any other [dst] that
    is not a pointer to a struct it returns an error, with the type in its
    text when [dst] is a pointer, and does nothing else: no panic, no call
    to the loader, nothing set. So [Bind] returns nil only for a pointer to a
    struct. *)
Theorem Bind_needs_struct_pointer :
  forall (dst : option Dst) (s : St),
    let r := Bind db scanner ctx handle qLoder lastInsertIDSupport dst s in
    let structPointer (t : GoType) :=
      kindOf t = KPointer /\ exists name fields, Elem t = Some (TStruct name fields) in
    (dst = None -> r = mkBindResult s None (Panic nilDereference))
    /\ (forall d, dst = Some d -> ~ structPointer (dstType d) ->
          r = mkBindResult s (pointee d)
                (Ret (Some (Errorf
                   match kindOf (dstType d) with
                   | KPointer => "must be a pointer to a struct. found: "
                                 +:+ typeString (dstType d)
                   | _ => "must be a pointer"
                   end))))
    /\ (boutcome r = Ret None -> exists d, dst = Some d /\ structPointer (dstType d)).
Proof.
  intros dst s r structPointer. unfold r, structPointer. clear r structPointer.
  split; [intros ->; reflexivity|]. split.
  - intros [t p] -> Hno. simpl in Hno. unfold Bind. simpl.
    destruct t; simpl; try reflexivity.
    + exfalso. apply Hno. split; [reflexivity|]. do 2 eexists. reflexivity.
    + exfalso. apply Hno. split; [reflexivity|]. do 2 eexists. reflexivity.
    + destruct t; simpl; try reflexivity.
      exfalso. apply Hno. split; [reflexivity|]. do 2 eexists. reflexivity.
  - destruct dst as [[t p]|]; [|discriminate]. unfold Bind. simpl. intros H.
    exists {| dstType := t; pointee := p |}. split; [reflexivity|]. simpl.
    destruct t; simpl in *; try discriminate;
      try (split; [reflexivity|]; do 2 eexists; reflexivity).
    destruct t; simpl in *; try discriminate. split; [reflexivity|].
    do 2 eexists. reflexivity.
Qed.

(** On a nil pointer the loop body stops at every field it acts on. *)
Lemma bindField_nil (f : StructField) (s : St) :
  needsBinding f = true ->
  boutcome (bindField2 f None s) <> Ret None /\ btarget (bindField2 f None s) = None.
Proof.
  intros Hn.
  assert (Hstop : boutcome (bindField2 f None s) <> Ret None).
  { destruct (directive f) as [[[isExec single] text]|] eqn:Hd.
    - rewrite (bindField_directive _ _ _ _ _ _ _ _ _ _ _ _ Hn Hd). unfold install.
      destruct (resolveQuery_returns qLoder text (Name f) s)
        as [(s1 & script & err & ->)|(_ & s1 & ->)]; [destruct err|]; discriminate.
    - rewrite (bindField_no_directive _ _ _ _ _ _ _ _ _ Hn Hd). discriminate. }
  split; [exact Hstop|]. apply bindField_stop. exact Hstop.
Qed.

(** X2. [Bind] on a nil pointer to a struct returns nil exactly when the
    struct has no exported function-typed field; with such a field it ends
    in an error or in a panic, and in no case is anything set. *)
Theorem Bind_nil_pointer :
  forall (name : string) (fields : list StructField) (s : St),
    let r := Bind2 {| dstType := TPointer (TStruct name fields); pointee := None |} s in
    btarget r = None
    /\ (boutcome r = Ret None <-> forall f, In f fields -> needsBinding f = false).
Proof.
  intros name fields s r. unfold r. rewrite Bind_struct. clear r.
  revert s. induction fields as [|f fs IH]; intros s.
  - split; [reflexivity|]. split; [intros _ f []| reflexivity].
  - simpl. destruct (needsBinding f) eqn:Hn.
    + destruct (bindField_nil f s Hn) as [Hstop Ht].
      destruct (bindField2 f None s) as [s' value' [[e|]|p]]; simpl in *;
        try contradiction; (split; [exact Ht|]);
        (split; [discriminate | intros H; specialize (H f (or_introl eq_refl)); congruence]).
    + rewrite (bindField_skip _ _ _ _ _ _ _ _ _ Hn).
      destruct (IH s) as [Ht Hiff]. split; [exact Ht|]. rewrite Hiff. split.
      * intros H g [<-|Hg]; [exact Hn | exact (H g Hg)].
      * intros H g Hg. apply H. right. exact Hg.
Qed.

(** ** The calls [Bind] makes *)




(** ** What a call does *)

(** On a handle that is not nil [exec] returns; with an error both numbers
    are 0; the results are read in the order [LastInsertId],
    [RowsAffected], up to the first error. *)
Lemma exec_outcome (query : string) (args : list GoValue) (s : St)
    (executor : ResId) (values : list any) :
  chooseExecutor handle args = (Live executor, values) ->
  exists s' id affected err tail rest,
    exec2 query args s = (s', Ret (id, affected, err))
    /\ (err <> None -> id = 0 /\ affected = 0)
    /\ trace s' = trace s ++ EvExecContext (Live executor) query values :: tail
    /\ (if lastInsertIDSupport then [EvLastInsertId; EvRowsAffected] else [EvRowsAffected])
       = tail ++ rest
    /\ (err = None -> rest = []).
Proof.
  intros Hch. rewrite exec_steps, Hch.
  destruct (ExecContext db executor ctx query values (world s)) as [w [result|e]].
  - destruct lastInsertIDSupport.
    + destruct (LastInsertId result) as [id|e].
      * destruct (RowsAffected result) as [n|e]; do 4 eexists;
          exists [EvLastInsertId; EvRowsAffected], []; cbv zeta;
          rewrite <- !List.app_assoc; (split; [reflexivity|]);
          repeat split; try reflexivity; try congruence.
      * do 4 eexists. exists [EvLastInsertId], [EvRowsAffected]. cbv zeta.
        rewrite <- !List.app_assoc. split; [reflexivity|].
        repeat split; try reflexivity; try congruence.
    + destruct (RowsAffected result) as [n|e]; do 4 eexists;
        exists [EvRowsAffected], []; cbv zeta;
        rewrite <- !List.app_assoc; (split; [reflexivity|]);
        repeat split; try reflexivity; try congruence.
  - do 4 eexists.
    exists [], (if lastInsertIDSupport then [EvLastInsertId; EvRowsAffected]
                else [EvRowsAffected]).
    cbv zeta. split; [reflexivity|]. repeat split; try reflexivity; try congruence.
Qed.

(** X4. The four conventions of a statement function, in terms of what
    [exec] does, the driver being taken to return. On a handle that is not
    nil [exec] returns, and with an error both numbers it returns are 0;
    the conventions with an error result then return, and the two without
    one panic exactly when [exec] returns an error. On the nil pointer of
    a handle type [exec] panics, and so does the call under each of the
    four conventions. *)
Theorem exec_conventions :
  forall (query : string) (args : list GoValue) (s : St) (ins : list GoType) (single : bool),
  exists (s' : St) (out : Res (Z * Z * option GoError)),
    exec2 query args s = (s', out)
    /\ match fst (chooseExecutor handle args), out with
       | Live _, Ret (id, affected, err) => err <> None -> id = 0 /\ affected = 0
       | NilHandle, Panic p => p = nilDereference
       | _, _ => False
       end
    /\ boundCall2 (TFunc ins []) true single query args s =
         Some (s', match out with
                   | Ret (_, _, None) => Ret []
                   | Ret (_, _, Some e) => Panic (PanicErr e)
                   | Panic p => Panic p
                   end)
    /\ boundCall2 (TFunc ins [TError]) true single query args s =
         Some (s', match out with
                   | Ret (_, _, err) => Ret [errorResult err]
                   | Panic p => Panic p
                   end)
    /\ boundCall2 (TFunc ins [TInt64; TInt64]) true single query args s =
         Some (s', match out with
                   | Ret (id, affected, None) => Ret [VInt64 id; VInt64 affected]
                   | Ret (_, _, Some e) => Panic (PanicErr e)
                   | Panic p => Panic p
                   end)
    /\ boundCall2 (TFunc ins [TInt64; TInt64; TError]) true single query args s =
         Some (s', match out with
                   | Ret (id, affected, err) =>
                       Ret [VInt64 id; VInt64 affected; errorResult err]
                   | Panic p => Panic p
                   end).
Proof.
  intros query args s ins single.
  destruct (chooseExecutor handle args) as [[executor|] values] eqn:Hch.
  - destruct (exec_outcome query args s executor values Hch)
      as (s' & id & affected & err & _ & _ & He & Hzero & _).
    exists s', (Ret (id, affected, err)). split; [exact He|]. split; [exact Hzero|].
    unfold boundCall, runner, MakeFunc, bind. simpl. rewrite He.
    destruct err as [e|]; repeat split; reflexivity.
  - eexists _, (Panic nilDereference).
    assert (He : exec2 query args s =
                 ({| world := world s;
                     trace := trace s ++ [EvExecContext NilHandle query values] |},
                  Panic nilDereference)).
    { rewrite (exec_steps db ctx handle lastInsertIDSupport), Hch. reflexivity. }
    split; [exact He|]. split; [reflexivity|].
    unfold boundCall, runner, MakeFunc, bind. simpl. rewrite He.
    repeat split; reflexivity.
Qed.

(** X5. The calls a bound function makes on its collaborators, for every
    convention. It makes one database call, on the resource chosen from
    its arguments, and never calls the loader. On the nil pointer of a
    handle type nothing follows and the call panics. Otherwise a statement
    function then reads [LastInsertId] (only with the support on) and
    [RowsAffected], in this order, up to the first error and all of them
    when there is none; a query function whose database call gave rows
    makes exactly one scan, by [ScanOne] or [ScanRow] for [@queryOne] and by
    [ScanAll] for [@query], unless the declared result of [@query] is not a
    slice, and none when the database call failed. *)
Theorem call_protocol :
  forall (typ : GoType) (isExec single : bool) (query : string)
         (fn : list GoValue -> M (list Value)) (args : list GoValue) (s : St)
         (executor : Executor) (values : list any),
    runner2 typ isExec single query = Ret fn ->
    chooseExecutor handle args = (executor, values) ->
    let s' := fst (MakeFunc typ fn args s) in
    exists added : list Event,
      trace s' = trace s ++ added
      /\ (forall name, ~ In (EvGet name) added)
      /\ match executor with
         | NilHandle =>
             added = [if isExec then EvExecContext NilHandle query values
                      else EvQueryContext NilHandle query values]
             /\ snd (MakeFunc typ fn args s) = Panic nilDereference
         | Live h =>
             if isExec then
               added = EvExecContext executor query values
                       :: execReads lastInsertIDSupport
                            (snd (ExecContext db h ctx query values (world s)))
             else
               exists oType,
                 Out typ 0 = Some oType
                 /\ added = EvQueryContext executor query values
                            :: queryScans single oType
                                 (snd (QueryContext db h ctx query values (world s)))
         end.
Proof.
  intros typ isExec single query fn args s executor values Hr Hch s'.
  assert (Hnoget : forall l : list Event,
             (forall ev, In ev l -> forall name, ev <> EvGet name) ->
             forall name, ~ In (EvGet name) l).
  { intros l H name Hin. exact (H _ Hin name eq_refl). }
  destruct executor as [h|].
  - pose proof (boundCall_state db scanner ctx handle lastInsertIDSupport
                  typ isExec single query fn args s Hr) as Hst.
    destruct isExec.
    + unfold s'. rewrite Hst, (exec_steps db ctx handle lastInsertIDSupport), Hch.
      eexists. split; [|split; [|reflexivity]].
      * destruct (ExecContext db h ctx query values (world s)) as [w [result|e]];
          simpl; [|reflexivity].
        destruct lastInsertIDSupport; [destruct (LastInsertId result)|]; simpl;
          rewrite <- ?List.app_assoc; reflexivity.
      * apply Hnoget. intros ev [<-|Hin] name; [discriminate|].
        unfold execReads in Hin.
        destruct (snd (ExecContext db h ctx query values (world s))) as [result|e];
          [|destruct Hin].
        destruct lastInsertIDSupport; [destruct (LastInsertId result)|];
          simpl in Hin; intuition (subst; discriminate).
    + destruct Hst as (oType & Hout & Hfst). unfold s'. rewrite Hfst.
      eexists. split; [|split; [|exists oType; split; [exact Hout | reflexivity]]].
      * unfold Query, bind, perform, ret, panic. rewrite Hch.
        destruct (QueryContext db h ctx query values (world s)) as [w [rows|e]]; simpl;
          [|reflexivity].
        destruct single; simpl.
        -- destruct oType; simpl;
             repeat match goal with
                    | |- context [ScanRow scanner ?v rows w] =>
                        destruct (ScanRow scanner v rows w) as [w2 [target err]]
                    | |- context [ScanOne scanner ?v rows w] =>
                        destruct (ScanOne scanner v rows w) as [w2 [target err]]
                    end; simpl; try destruct (isNoRows err); simpl;
             rewrite <- ?List.app_assoc; reflexivity.
        -- destruct oType; simpl; try reflexivity.
           match goal with
           | |- context [ScanAll scanner ?v rows w] =>
               destruct (ScanAll scanner v rows w) as [w2 [target err]]
           end. simpl. rewrite <- List.app_assoc. reflexivity.
      * apply Hnoget. intros ev [<-|Hin] name; [discriminate|].
        unfold queryScans in Hin.
        destruct (snd (QueryContext db h ctx query values (world s))) as [rows|e];
          [|destruct Hin].
        destruct single; destruct oType; simpl in Hin; intuition (subst; discriminate).
  - unfold s'.
    rewrite (boundCall_nil db scanner ctx handle lastInsertIDSupport
               typ isExec single query fn args s values Hr Hch).
    eexists. split; [reflexivity|]. split; [|split; reflexivity].
    apply Hnoget. intros ev [<-|[]] name. destruct isExec; discriminate.
Qed.

(** ** Queries *)

(** X6. A [@queryOne] function with a pointer as declared result, whose
    scan ends without error or with an error other than [sql.ErrNoRows]:
    the call gives a pointer to what the scan left, never nil, also when
    the scan failed; the error is returned under the convention with an
    error result and raised as a panic under the other. *)
Theorem queryOne_pointer_scanned :
  forall (query : string) (args : list GoValue) (s : St) (executor : ResId)
         (values : list any) (w1 w2 : W) (rows : Rows) (target : GoValue)
         (err : option GoError) (ins : list GoType) (elem : GoType),
    chooseExecutor handle args = (Live executor, values) ->
    QueryContext db executor ctx query values (world s) = (w1, Ok rows) ->
    ScanOne scanner (zeroValue elem) rows w1 = (w2, (target, err)) ->
    isNoRows err = false ->
    let s' := {| world := w2;
                 trace := trace s ++ [EvQueryContext (Live executor) query values;
                                      EvScanOne (New elem)] |} in
    let ptr := VPtr (TPointer elem) (Some target) in
    boundCall2 (TFunc ins [TPointer elem; TError]) false true query args s =
      Some (s', Ret [ptr; errorResult err])
    /\ boundCall2 (TFunc ins [TPointer elem]) false true query args s =
         Some (s', match err with Some e => Panic (PanicErr e) | None => Ret [ptr] end).
Proof.
  intros query args s executor values w1 w2 rows target err ins elem
         Hch Hquery Hscan Hno s' ptr.
  assert (Hq : Query2 query args true (TPointer elem) s = (s', Ret (Some ptr, err))).
  { unfold Query, bind, perform. rewrite Hch, Hquery. simpl. rewrite Hscan. simpl.
    rewrite Hno, <- List.app_assoc. reflexivity. }
  unfold boundCall, runner, MakeFunc, bind. simpl. rewrite Hq. subst ptr.
  destruct err as [e|]; simpl;
    rewrite ?(assignTo_typed (VPtr (TPointer elem) (Some target)) (TPointer elem) eq_refl);
    split; reflexivity.
Qed.

(** X7. With a pointer and an error as declared results, a [@queryOne]
    function on a handle that is not nil does not panic: whatever the
    database call and the scan return, the call returns a pointer of the
    declared type and an error result. On the nil pointer of a handle type
    the call panics. *)
Theorem queryOne_pointer_error_convention_returns :
  forall (query : string) (args : list GoValue) (s : St) (ins : list GoType)
         (elem : GoType),
  exists (s' : St) (out : Res (list GoValue)),
    boundCall2 (TFunc ins [TPointer elem; TError]) false true query args s = Some (s', out)
    /\ match fst (chooseExecutor handle args) with
       | Live _ =>
           exists (target : option GoValue) (err : option GoError),
             out = Ret [VPtr (TPointer elem) target; errorResult err]
       | NilHandle => out = Panic nilDereference
       end.
Proof.
  intros query args s ins elem.
  unfold boundCall, runner, MakeFunc, bind. simpl.
  unfold Query, bind, perform, ret, nilCall.
  destruct (chooseExecutor handle args) as [[executor|] values]; simpl;
    [|eexists _, _; split; reflexivity].
  destruct (QueryContext db executor ctx query values (world s)) as [w [rows|e]]; simpl.
  - destruct (ScanOne scanner (zeroValue elem) rows w) as [w2 [target err]]; simpl.
    destruct (isNoRows err); simpl.
    + rewrite (assignTo_typed (VPtr (TPointer elem) None) (TPointer elem) eq_refl).
      eexists _, _. split; [reflexivity|]. exists None, None. reflexivity.
    + rewrite (assignTo_typed (VPtr (TPointer elem) (Some target)) (TPointer elem) eq_refl).
      destruct err as [e|]; eexists _, _; (split; [reflexivity|]);
        [exists (Some target), (Some e) | exists (Some target), None]; reflexivity.
  - rewrite (assignTo_typed (VPtr (TPointer elem) None) (TPointer elem) eq_refl).
    eexists _, _. split; [reflexivity|]. exists None, (Some e). reflexivity.
Qed.

(** X8. A [@queryOne] function whose declared result is neither a pointer
    nor an interface never returns once its query ran: whatever the scan
    does, the call ends in a panic, under both conventions. *)
Theorem queryOne_by_value_always_panics :
  forall (query : string) (args : list GoValue) (s : St) (executor : ResId)
         (values : list any) (w1 : W) (rows : Rows) (ins : list GoType) (oType : GoType),
    chooseExecutor handle args = (Live executor, values) ->
    QueryContext db executor ctx query values (world s) = (w1, Ok rows) ->
    kindOf oType <> KPointer -> kindOf oType <> KInterface ->
    (exists s' p, boundCall2 (TFunc ins [oType]) false true query args s =
                    Some (s', Panic p))
    /\ (exists s' p, boundCall2 (TFunc ins [oType; TError]) false true query args s =
                       Some (s', Panic p)).
Proof.
  intros query args s executor values w1 rows ins oType Hch Hquery Hk1 Hk2.
  assert (Hq : exists s' target err,
             Query2 query args true oType s =
             (s', Ret (Some (VPtr (TPointer oType) (Some target)), err))).
  { unfold Query, bind, perform, ret. rewrite Hch, Hquery. simpl.
    replace (Kind_eqb (kindOf oType) KPointer) with false
      by (destruct oType; simpl in *; congruence).
    cbv iota. simpl.
    destruct (ScanRow scanner (zeroValue oType) rows w1) as [w2 [target err]]. simpl.
    eauto. }
  destruct Hq as (s' & target & err & Hq).
  unfold boundCall, runner, MakeFunc, bind. simpl. rewrite Hq. simpl.
  split.
  - destruct err as [e|]; simpl; rewrite ?(assignTo_pointer_to oType (Some target) Hk1 Hk2);
      eexists _, _; reflexivity.
  - rewrite (assignTo_pointer_to oType (Some target) Hk1 Hk2). eexists _, _. reflexivity.
Qed.

(** X9. A [@query] function whose declared result is not a slice panics in
    [reflect.MakeSlice] once its query ran, before any scan, under both
    conventions; nothing shows it at bind time. *)
Theorem queryMany_non_slice_panics :
  forall (query : string) (args : list GoValue) (s : St) (executor : ResId)
         (values : list any) (w1 : W) (rows : Rows) (ins : list GoType) (oType : GoType),
    chooseExecutor handle args = (Live executor, values) ->
    QueryContext db executor ctx query values (world s) = (w1, Ok rows) ->
    kindOf oType <> KSlice ->
    let s' := {| world := w1; trace := trace s ++ [EvQueryContext (Live executor) query values] |} in
    let refused := PanicStr "reflect.MakeSlice of non-slice type" in
    boundCall2 (TFunc ins [oType]) false false query args s = Some (s', Panic refused)
    /\ boundCall2 (TFunc ins [oType; TError]) false false query args s =
         Some (s', Panic refused).
Proof.
  intros query args s executor values w1 rows ins oType Hch Hquery Hk s' refused.
  assert (Hq : Query2 query args false oType s = (s', Panic refused)).
  { unfold Query, bind, perform, MakeSlice. rewrite Hch, Hquery. simpl.
    replace (Kind_eqb (kindOf oType) KSlice) with false
      by (destruct oType; simpl in *; congruence).
    reflexivity. }
  unfold boundCall, runner, MakeFunc, bind. simpl. rewrite Hq. split; reflexivity.
Qed.

(** X10. A [@query] function with a slice as declared result returns the
    slice as the scan left it. When the scan fails, the convention with an
    error result returns that slice together with the error, and the other
    convention raises the error as a panic. *)
Theorem queryMany_scanned :
  forall (query : string) (args : list GoValue) (s : St) (executor : ResId)
         (values : list any) (w1 w2 : W) (rows : Rows) (items : option (list GoValue))
         (err : option GoError) (ins : list GoType) (elem : GoType),
    chooseExecutor handle args = (Live executor, values) ->
    QueryContext db executor ctx query values (world s) = (w1, Ok rows) ->
    let oType := TSlice elem in
    ScanAll scanner (VSlice oType (Some [])) rows w1 = (w2, (VSlice oType items, err)) ->
    let s' := {| world := w2;
                 trace := trace s ++ [EvQueryContext (Live executor) query values;
                                      EvScanAll (VPtr (TPointer oType)
                                                      (Some (VSlice oType (Some []))))] |} in
    boundCall2 (TFunc ins [oType; TError]) false false query args s =
      Some (s', Ret [VSlice oType items; errorResult err])
    /\ boundCall2 (TFunc ins [oType]) false false query args s =
         Some (s', match err with
                   | Some e => Panic (PanicErr e)
                   | None => Ret [VSlice oType items]
                   end).
Proof.
  intros query args s executor values w1 w2 rows items err ins elem Hch Hquery oType
         Hscan s'.
  assert (Hq : Query2 query args false oType s = (s', Ret (Some (VSlice oType items), err))).
  { unfold Query, bind, perform. rewrite Hch, Hquery. simpl. rewrite Hscan. simpl.
    rewrite <- List.app_assoc. reflexivity. }
  unfold boundCall, runner, MakeFunc, bind. simpl. rewrite Hq.
  destruct err as [e|]; simpl;
    rewrite ?(assignTo_typed (VSlice oType items) oType eq_refl);
    split; reflexivity.
Qed.

(** ** From the directive to the call *)

Local Abbreviation runsDirective := (runsDirective db scanner ctx handle qLoder lastInsertIDSupport).

Lemma bindField_sets (f : StructField) (inst : Target) (s : St) :
  needsBinding f = true ->
  boutcome (bindField2 f (Some inst) s) = Ret None ->
  exists (isExec single : bool) (text script : string) (s1 : St) fn,
    directive f = Some (isExec, single, text)
    /\ resolveQuery qLoder text (Name f) s = (s1, Ret (script, None))
    /\ runner2 (Typ f) isExec single script = Ret fn
    /\ bindField2 f (Some inst) s =
       mkBindResult s1 (Some (<[Name f := SFunc (MakeFunc (Typ f) fn)]> inst)) (Ret None).
Proof.
  intros Hn Hok. destruct (directive f) as [[[isExec single] text]|] eqn:Hd.
  - rewrite (bindField_directive _ _ _ _ _ _ _ _ _ _ _ _ Hn Hd) in *. unfold install in *.
    destruct (resolveQuery qLoder text (Name f) s) as [s1 [[script [e|]]|p]] eqn:Hres;
      try discriminate.
    destruct (runner2 (Typ f) isExec single script) as [fn|p] eqn:Hr; try discriminate.
    exists isExec, single, text, script, s1, fn.
    split; [reflexivity|]. split; [exact Hres|]. split; [exact Hr|]. reflexivity.
  - rewrite (bindField_no_directive _ _ _ _ _ _ _ _ _ Hn Hd) in Hok. discriminate.
Qed.

Lemma bindFields_run_directives (fields : list StructField) (inst : Target) (s s1 : St)
    (value1 : option Target) :
  List.NoDup (map Name (List.filter needsBinding fields)) ->
  bindFields2 fields (Some inst) s = mkBindResult s1 value1 (Ret None) ->
  exists inst1, value1 = Some inst1 /\
    forall g, In g fields -> needsBinding g = true -> runsDirective inst1 g.
Proof.
  revert inst s. induction fields as [|f fs IH]; intros inst s Hnd Hrun.
  - simpl in Hrun. injection Hrun as <- <-. exists inst. split; [reflexivity|]. intros g [].
  - simpl in Hrun, Hnd. destruct (needsBinding f) eqn:Hn.
    + simpl in Hnd. apply NoDup_cons_iff in Hnd as [Hnotin Hnd].
      assert (Hok : boutcome (bindField2 f (Some inst) s) = Ret None).
      { destruct (bindField2 f (Some inst) s) as [s' value' [[e|]|p]];
          try discriminate; reflexivity. }
      destruct (bindField_sets f inst s Hn Hok)
        as (isExec & single & text & script & s2 & fn & Hd & Hres & Hr & Hf).
      rewrite Hf in Hrun.
      destruct (IH _ s2 Hnd Hrun) as (inst1 & -> & Hb).
      exists inst1. split; [reflexivity|]. intros g [<-|Hg] Hgn.
      * exists isExec, single, text, script, s, s2, fn. repeat split; try assumption.
        assert (Hfr := bindFields_frame db scanner ctx handle qLoder lastInsertIDSupport fs
                  (Some (<[Name f:=SFunc (MakeFunc (Typ f) fn)]> inst)) s2 (Name f)).
        rewrite Hrun in Hfr. simpl in Hfr. rewrite Hfr.
        -- apply lookup_insert_eq.
        -- intros h Hh Hhn Heq. apply Hnotin. rewrite <- Heq.
           apply in_map. apply filter_In. split; assumption.
      * apply Hb; assumption.
    + rewrite (bindField_skip _ _ _ _ _ _ _ _ _ Hn) in Hrun.
      destruct (IH inst s Hnd Hrun) as (inst1 & -> & Hb).
      exists inst1. split; [reflexivity|]. intros g [<-|Hg] Hgn; [congruence|].
      apply Hb; assumption.
Qed.

(** X11. After [Bind] returned nil, each exported function-typed field
    holds the function for its own directive: a call of the field is the
    call of [runner]'s closure for the type of the field, the kind of the
    directive that was chosen, and a query text that is the directive text
    itself when it is literal, and otherwise a text the loader returned for
    the name the directive stands for. *)
Theorem bound_field_runs_its_directive :
  forall (name : string) (fields : list StructField) (inst : Target) (s : St)
         (f : StructField) (isExec single : bool) (text : string),
    List.NoDup (map Name (List.filter needsBinding fields)) ->
    let r := Bind2 {| dstType := TPointer (TStruct name fields); pointee := Some inst |} s in
    boutcome r = Ret None ->
    In f fields -> needsBinding f = true ->
    directive f = Some (isExec, single, text) ->
    exists (script : string) (call : list GoValue -> M (list GoValue)),
      slotOf (btarget r) (Name f) = Some (SFunc call)
      /\ (forall args st,
            boundCall2 (Typ f) isExec single script args st = Some (call args st))
      /\ ((forall rest, text <> "file:" +:+ rest) -> script = text)
      /\ (forall rest, text = "file:" +:+ rest ->
            exists (l : @QueryLoader W) (asked : string) (w0 w1 : W),
              qLoder = Some l
              /\ referenceName rest asked
              /\ Get l asked w0 = (w1, Ok script)).
Proof.
  intros name fields inst s f isExec single text Hnd r Hok Hin Hn Hd.
  unfold r in *. rewrite Bind_struct in *. clear r.
  destruct (bindFields2 fields (Some inst) s) as [s1 value1 o] eqn:Hrun.
  simpl in Hok. subst o.
  destruct (bindFields_run_directives _ _ _ _ _ Hnd Hrun) as (inst1 & -> & Hb).
  destruct (Hb f Hin Hn)
    as (isExec' & single' & text' & script & sA & sB & fn & Hd' & Hres & Hr & Hslot).
  rewrite Hd in Hd'. injection Hd' as <- <- <-.
  exists script, (MakeFunc (Typ f) fn). split; [exact Hslot|]. split; [|split].
  - intros args st. unfold boundCall. rewrite Hr. reflexivity.
  - intros Hlit. rewrite (resolveQuery_literal _ _ _ _ Hlit) in Hres. congruence.
  - intros rest ->. destruct qLoder as [l|];
      [|rewrite resolveQuery_file_nil in Hres; discriminate].
    rewrite resolveQuery_file in Hres.
    destruct (Get l (fileName rest) (world sA)) as [w1 [t|e]] eqn:Hget;
      [|discriminate].
    exists l, (fileName rest), (world sA), w1. split; [reflexivity|].
    split; [apply referenceName_fileName; reflexivity|].
    rewrite Hget. congruence.
Qed.

(** ** The name given to the loader *)

(** X12. The loader is always asked for a name that ends in [.sql], and a
    directive names the same file with the extension written or left out:
    for a name without it, [file:NAME] and [file:NAME.sql] make the same
    call to the loader and leave the same state. *)
Theorem loader_name_has_extension :
  (forall rest, HasSuffix (fileName rest) ".sql" = true)
  /\ (forall rest, fileName (fileName rest) = fileName rest)
  /\ (forall base fnName s,
        HasSuffix base ".sql" = false ->
        fileName (base +:+ ".sql") = fileName base
        /\ fst (resolveQuery qLoder ("file:" +:+ base +:+ ".sql") fnName s) =
           fst (resolveQuery qLoder ("file:" +:+ base) fnName s)).
Proof.
  assert (H1 : forall rest, HasSuffix (fileName rest) ".sql" = true).
  { intros rest. unfold fileName. destruct (HasSuffix rest ".sql") eqn:E;
      [exact E | apply HasSuffix_append]. }
  split; [exact H1|]. split.
  - intros rest. unfold fileName at 1. rewrite H1. reflexivity.
  - intros base fnName s Hno.
    assert (Hn : fileName (base +:+ ".sql") = fileName base).
    { unfold fileName. rewrite HasSuffix_append, Hno. reflexivity. }
    split; [exact Hn|].
    destruct qLoder as [l|].
    + rewrite !resolveQuery_file, Hn.
      destruct (Get l (fileName base) (world s)) as [w [t|e]]; reflexivity.
    + rewrite !resolveQuery_file_nil, Hn. reflexivity.
Qed.

(** ** How [Bind] fails *)

(** The loop keeps a nil target nil and a target that is there in place. *)
Lemma bindFields_target_nil (fields : list StructField) (value : option Target) (s : St) :
  btarget (bindFields2 fields value s) = None <-> value = None.
Proof.
  revert value s. induction fields as [|f fs IH]; intros value s; [reflexivity|].
  assert (Hf : btarget (bindField2 f value s) = None <-> value = None).
  { destruct (needsBinding f) eqn:Hn.
    - destruct value as [inst|].
      + destruct (bindField_cases db scanner ctx handle qLoder lastInsertIDSupport f inst s)
          as [[_ ->]|[(_ & _ & ->)|(_ & _ & isExec & single & script & fn & _ & ->)]];
          split; discriminate.
      + destruct (bindField_nil f s Hn) as [_ ->]. tauto.
    - rewrite (bindField_skip _ _ _ _ _ _ _ _ _ Hn). reflexivity. }
  simpl. destruct (bindField2 f value s) as [s' value' [[e|]|p]]; simpl in Hf;
    try exact Hf.
  rewrite IH. exact Hf.
Qed.

Lemma CutPrefix_unchanged (p s r : string) : CutPrefix s p = (r, false) -> r = s.
Proof.
  revert s r. induction p as [|c p IH]; simpl; intros s r H; [discriminate|].
  destruct s as [|d s']; [congruence|].
  destruct (Ascii.eqb c d); [|congruence].
  destruct (CutPrefix s' p) as [r' [|]]; congruence.
Qed.

(** How the loop body ends when it does not go on. *)
Lemma bindField_failure (f : StructField) (value : option Target) (s : St) :
  needsBinding f = true ->
  match boutcome (bindField2 f value s) with
  | Ret None => True
  | Ret (Some e) =>
      (directive f = None /\ e = noQueries f)
      \/ exists isExec single rest l asked cause w0 w1,
           directive f = Some (isExec, single, "file:" +:+ rest)
           /\ qLoder = Some l /\ referenceName rest asked
           /\ Get l asked w0 = (w1, Err cause)
           /\ e = Join [Errorf (Name f +:+ ": failed to load file " +:+ "file:" +:+ rest);
                        cause]
  | Panic p =>
      exists isExec single text,
        directive f = Some (isExec, single, text)
        /\ ((qLoder = None /\ (exists rest, text = "file:" +:+ rest) /\ p = nilDereference)
            \/ (value = None
                /\ p = PanicStr "reflect: call of reflect.Value.FieldByName on zero Value")
            \/ (supportedCount isExec (NumOut (Typ f)) = false /\ p = unsupported (Typ f)))
  end.
Proof.
  intros Hn. destruct (directive f) as [[[isExec single] text]|] eqn:Hd.
  - rewrite (bindField_directive _ _ _ _ _ _ _ _ _ _ _ _ Hn Hd). unfold install.
    destruct (CutPrefix text "file:") as [rest [|]] eqn:Hcut.
    + apply CutPrefix_found in Hcut. subst text. destruct qLoder as [l|].
      * rewrite resolveQuery_file.
        destruct (Get l (fileName rest) (world s)) as [w1 [t|cause]] eqn:Hget.
        -- destruct value as [inst|]; simpl; [|eauto 10].
           destruct (runner_by_count db scanner ctx handle lastInsertIDSupport
                       (Typ f) isExec single t) as [Hyes Hno].
           destruct (supportedCount isExec (NumOut (Typ f))) eqn:Hc.
           ++ destruct (Hyes eq_refl) as [fn ->]. exact I.
           ++ rewrite (Hno eq_refl). simpl. eauto 10.
        -- simpl. right.
           exists isExec, single, rest, l, (fileName rest), cause, (world s), w1.
           repeat split; try reflexivity; try assumption.
           apply referenceName_fileName. reflexivity.
      * rewrite resolveQuery_file_nil. simpl.
        exists isExec, single, ("file:" +:+ rest). split; [reflexivity|]. left. eauto.
    + assert (Hlit : resolveQuery qLoder text (Name f) s = (s, Ret (text, None))).
      { unfold resolveQuery. rewrite Hcut, (CutPrefix_unchanged _ _ _ Hcut). reflexivity. }
      rewrite Hlit. destruct value as [inst|]; simpl; [|eauto 10].
      destruct (runner_by_count db scanner ctx handle lastInsertIDSupport
                  (Typ f) isExec single text) as [Hyes Hno].
      destruct (supportedCount isExec (NumOut (Typ f))) eqn:Hc.
      * destruct (Hyes eq_refl) as [fn ->]. exact I.
      * rewrite (Hno eq_refl). simpl. eauto 10.
  - rewrite (bindField_no_directive _ _ _ _ _ _ _ _ _ Hn Hd). simpl. left. auto.
Qed.

(** X16. The ways [Bind] on a pointer to a struct can fail. An error it
    returns is that of an exported function-typed field without directive,
    or the joined error of such a field whose [file:] text the loader did
    not give. A panic comes from such a field with a directive: the loader
    is nil and the directive names a file, or the target pointer is nil, or
    the number of results of the field has no case in [runner]. *)
Theorem Bind_failure_modes :
  forall (name : string) (fields : list StructField) (value : option Target) (s : St),
    match boutcome (Bind2 {| dstType := TPointer (TStruct name fields);
                             pointee := value |} s) with
    | Ret None => True
    | Ret (Some e) =>
        exists f, In f fields /\ needsBinding f = true /\
          ((directive f = None /\ e = noQueries f)
           \/ exists isExec single rest l asked cause w0 w1,
                directive f = Some (isExec, single, "file:" +:+ rest)
                /\ qLoder = Some l /\ referenceName rest asked
                /\ Get l asked w0 = (w1, Err cause)
                /\ e = Join [Errorf (Name f +:+ ": failed to load file "
                                     +:+ "file:" +:+ rest); cause])
    | Panic p =>
        exists f isExec single text,
          In f fields /\ needsBinding f = true /\
          directive f = Some (isExec, single, text) /\
          ((qLoder = None /\ (exists rest, text = "file:" +:+ rest) /\ p = nilDereference)
           \/ (value = None
               /\ p = PanicStr "reflect: call of reflect.Value.FieldByName on zero Value")
           \/ (supportedCount isExec (NumOut (Typ f)) = false /\ p = unsupported (Typ f)))
    end.
Proof.
  intros name fields value s. rewrite Bind_struct.
  destruct (bindFields_split db scanner ctx handle qLoder lastInsertIDSupport fields value s)
    as [Hok|(pre & f & post & s1 & v1 & -> & Hpre & Hr & Hstop)].
  - rewrite Hok. exact I.
  - rewrite Hr in Hstop |- *.
    destruct (bindField_stop db scanner ctx handle qLoder lastInsertIDSupport f v1 s1 Hstop)
      as [Hn _].
    assert (Hin : In f (pre ++ f :: post)) by (apply in_or_app; right; left; reflexivity).
    pose proof (bindField_failure f v1 s1 Hn) as Hfail.
    destruct (boutcome (bindField2 f v1 s1)) as [[e|]|p].
    + exists f. split; [exact Hin|]. split; [exact Hn | exact Hfail].
    + exact I.
    + destruct Hfail as (isExec & single & text & Hd & Hcase).
      exists f, isExec, single, text. repeat split; try assumption.
      destruct Hcase as [Hloader|[[Hnil Hp]|Hcount]];
        [left; exact Hloader | right; left | right; right; exact Hcount].
      split; [|exact Hp]. subst v1.
      apply (bindFields_target_nil pre value s). rewrite Hpre. reflexivity.
Qed.

(** ** The results of a closure *)

(** X17. A closure of [runner] returns as many values as the type it was
    made for declares, so that [reflect.MakeFunc] never refuses a call for
    the number of its results: a panic of a bound function is the database
    error, a type that does not fit, or a declared type that cannot be
    scanned into. *)
Theorem closure_returns_declared_count :
  forall (typ : GoType) (isExec single : bool) (query : string)
         (fn : list GoValue -> M (list Value)) (args : list GoValue) (s s' : St)
         (out : list Value),
    runner2 typ isExec single query = Ret fn ->
    fn args s = (s', Ret out) ->
    length out = NumOut typ.
Proof.
  intros typ isExec single query fn args s s' out. unfold runner. destruct isExec.
  - destruct (NumOut typ) as [|[|[|[|n]]]]; intros Hr; try discriminate;
      injection Hr as <-; unfold bind, ret, panic;
      destruct (exec2 query args s) as [s1 [[[id affected] [e|]]|p]];
      intros H; try discriminate; injection H as <- <-; reflexivity.
  - destruct (NumOut typ) as [|[|[|n]]]; intros Hr; try discriminate;
      injection Hr as <-; destruct (Out typ 0) as [oType|]; unfold bind, ret, panic;
      try discriminate;
      destruct (Query2 query args single oType s) as [s1 [[rows [e|]]|p]];
      intros H; try discriminate; injection H as <- <-; reflexivity.
Qed.

End MoreProperties.

(** ** The file resources *)

Section ResourceProperties.

Context {W File FileInfo Writer : Type}.
Variable pathJoin : string -> string -> string.
Variable Close : File -> W -> W.
Variable Ext : string -> string.
Variable TypeByExtension : string -> string.
Variable Copy : Writer -> File -> W -> W * (Z * option GoError).
Variable ReadAll : File -> W -> W * result string.

(** X13. With [DontPrefix], [Absolute] never uses the root path: it takes
    one leading slash off the name, and no more than one, and leaves a name
    without a leading slash as it is. Without [DontPrefix] the name is
    joined to the root path. *)
Theorem Absolute_cases :
  forall (r : @ResourceFS W File) (name : string),
    (DontPrefix r = false -> Absolute pathJoin r name = pathJoin (RootPath r) name)
    /\ (DontPrefix r = true ->
        (forall x, name = "/" +:+ x -> Absolute pathJoin r name = x)
        /\ ((forall x, name <> "/" +:+ x) -> Absolute pathJoin r name = name)).
Proof.
  intros r name. unfold Absolute, TrimPrefix. split; intros ->; [reflexivity|].
  change (negb true) with false. cbv iota. split.
  - intros x ->. reflexivity.
  - intros Hno. rewrite (CutPrefix_not_found _ _ Hno). reflexivity.
Qed.

(** X14. [ProbeType] and [WriteTo] open the same file, the one [Absolute]
    names. When it cannot be opened both return the error of the opening,
    with an empty type and a count of 0. When it can, [ProbeType] does not
    fail and does not read: its answer is the type for the extension of the
    name; [WriteTo] returns what [io.Copy] returns; and both close the
    file. *)
Theorem probe_and_write :
  forall (r : @ResourceFS W File) (name : string) (dst : Writer) (w w1 : W)
         (opened : result File),
    fsOpen (Source r) (Absolute pathJoin r name) w = (w1, opened) ->
    match opened with
    | Err e =>
        ProbeType pathJoin Close Ext TypeByExtension r name w = (w1, ("", Some e))
        /\ WriteTo pathJoin Close Copy r name dst w = (w1, (0, Some e))
    | Ok fd =>
        ProbeType pathJoin Close Ext TypeByExtension r name w =
          (Close fd w1, (TypeByExtension (Ext (Absolute pathJoin r name)), None))
        /\ WriteTo pathJoin Close Copy r name dst w =
             (Close fd (fst (Copy dst fd w1)), snd (Copy dst fd w1))
    end.
Proof.
  intros r name dst w w1 opened Hopen. unfold ProbeType, WriteTo. rewrite Hopen.
  destruct opened as [fd|e]; [|split; reflexivity].
  split; [reflexivity|]. destruct (Copy dst fd w1) as [w2 copied]. reflexivity.
Qed.

(** X15. With the loader of [NewResFSQueryLoader], a directive [file:NAME]
    makes [resolveQuery] read the file that a resource without
    [DontPrefix] names [NAME.sql], under the root path, whatever
    [DontPrefix] is, and close it. A failure to open or to read it is the
    second part of the error, after the name of the field and the
    directive text. *)
Theorem fs_loader_reads_under_root :
  forall (r : @ResourceFS W File) (rest fnName : string) (s : @St W),
    let below := {| Source := Source r; RootPath := RootPath r; DontPrefix := false |} in
    let path := Absolute pathJoin below (fileName rest) in
    let after (w : W) := {| world := w; trace := trace s ++ [EvGet (fileName rest)] |} in
    let failed (e : GoError) : Res (string * option GoError) :=
      Ret ("", Some (Join [Errorf (fnName +:+ ": failed to load file " +:+ "file:" +:+ rest);
                           e])) in
    resolveQuery (Some (NewResFSQueryLoader pathJoin Close ReadAll r)) ("file:" +:+ rest)
                 fnName s =
    match fsOpen (Source r) path (world s) with
    | (w1, Err e) => (after w1, failed e)
    | (w1, Ok fd) =>
        match ReadAll fd w1 with
        | (w2, Err e) => (after (Close fd w2), failed e)
        | (w2, Ok text) => (after (Close fd w2), Ret (text, None))
        end
    end.
Proof.
  intros r rest fnName s below path after failed.
  rewrite resolveQuery_file. unfold NewResFSQueryLoader, NewFSQueryLoader. simpl.
  rewrite fsQueryLoader_Get_spec. unfold path, below, Absolute. simpl.
  destruct (fsOpen (Source r) (pathJoin (RootPath r) (fileName rest)) (world s))
    as [w1 [fd|e]]; [|reflexivity].
  destruct (ReadAll fd w1) as [w2 [text|e]]; reflexivity.
Qed.

End ResourceProperties.

(** ** The further properties on concrete inputs *)

Section MoreExamples.

Import Demo Cases More.

(** The nil interface, a string, a pointer to a string, and the struct of
    the tests as target. *)
Lemma Bind_needs_struct_pointer_witness :
  Bind db scanner false (Live 0%nat) (Some loader) true None s0 =
    mkBindResult s0 None (Panic nilDereference)
  /\ Bind db scanner false (Live 0%nat) (Some loader) true
          (Some {| dstType := TString; pointee := None |}) s0 =
       mkBindResult s0 None (Ret (Some (Errorf "must be a pointer")))
  /\ Bind db scanner false (Live 0%nat) (Some loader) true
          (Some {| dstType := TPointer TString; pointee := None |}) s0 =
       mkBindResult s0 None
         (Ret (Some (Errorf "must be a pointer to a struct. found: *string")))
  /\ exists d,
       Some (target "Repo" [AddUser]) = Some d
       /\ kindOf (dstType d) = KPointer
       /\ exists name fields, Elem (dstType d) = Some (TStruct name fields).
Proof.
  split; [|split; [|split]].
  - exact (proj1 (Bind_needs_struct_pointer db scanner false (Live 0%nat) (Some loader) true
                    None s0) eq_refl).
  - refine (proj1 (proj2 (Bind_needs_struct_pointer db scanner false (Live 0%nat)
                            (Some loader) true
                            (Some {| dstType := TString; pointee := None |}) s0))
                  _ eq_refl _).
    intros [H _]. discriminate H.
  - refine (proj1 (proj2 (Bind_needs_struct_pointer db scanner false (Live 0%nat)
                            (Some loader) true
                            (Some {| dstType := TPointer TString; pointee := None |}) s0))
                  _ eq_refl _).
    intros [_ (name & fields & H)]. discriminate H.
  - exact (proj2 (proj2 (Bind_needs_struct_pointer db scanner false (Live 0%nat)
                           (Some loader) true (Some (target "Repo" [AddUser])) s0)) eq_refl).
Defined.

(** [AddUser] with the support on, on a database with and without
    generated identifiers; [SelectUser] on an empty table; and [AddUserTx]
    on the nil pointer of a handle type. *)
Lemma call_protocol_witness :
  let closure (database : @Database World Cursor Ctx) (f : StructField) (isExec single : bool)
              (q : string) :=
    match runner database scanner false (Live 0%nat) true (Typ f) isExec single q with
    | Ret fn => fn
    | Panic _ => fun _ => ret []
    end in
  let insert := EvExecContext (Live 0%nat) "insert" [Some (VString "john"); Some (VInt 65)] in
  trace (fst (MakeFunc (Typ AddUser) (closure db AddUser true false "insert")
                [VString "john"; VInt 65] s0)) =
    [insert; EvLastInsertId; EvRowsAffected]
  /\ trace (fst (MakeFunc (Typ AddUser) (closure dbNoIds AddUser true false "insert")
                   [VString "john"; VInt 65] s0)) =
       [insert; EvLastInsertId]
  /\ trace (fst (MakeFunc (Typ SelectUser) (closure db SelectUser false true "select")
                   [VInt64 3] s0)) =
       [EvQueryContext (Live 0%nat) "select" [Some (VInt64 3)]; EvScanOne (New User)]
  /\ (let call := MakeFunc (Typ AddUserTx) (closure db AddUserTx true false "insert")
                           [VIface TDBResource (Some (VPtr TConn None));
                            VString "john"; VInt 65] s0 in
      trace (fst call) =
        [EvExecContext NilHandle "insert" [Some (VString "john"); Some (VInt 65)]]
      /\ snd call = Panic nilDereference).
Proof.
  intros closure insert. split; [|split; [|split]].
  - destruct (call_protocol db scanner false (Live 0%nat) true (Typ AddUser) true false
                "insert" (closure db AddUser true false "insert")
                [VString "john"; VInt 65] s0 (Live 0%nat)
                [Some (VString "john"); Some (VInt 65)] eq_refl eq_refl)
      as (added & Ht & _ & Hadded).
    rewrite Ht, Hadded. reflexivity.
  - destruct (call_protocol dbNoIds scanner false (Live 0%nat) true (Typ AddUser) true false
                "insert" (closure dbNoIds AddUser true false "insert")
                [VString "john"; VInt 65] s0 (Live 0%nat)
                [Some (VString "john"); Some (VInt 65)] eq_refl eq_refl)
      as (added & Ht & _ & Hadded).
    rewrite Ht, Hadded. reflexivity.
  - destruct (call_protocol db scanner false (Live 0%nat) true (Typ SelectUser) false true
                "select" (closure db SelectUser false true "select") [VInt64 3] s0 (Live 0%nat) [Some (VInt64 3)] eq_refl eq_refl)
      as (added & Ht & _ & oType & Ho & Hadded).
    injection Ho as <-. rewrite Ht, Hadded. reflexivity.
  - destruct (call_protocol db scanner false (Live 0%nat) true (Typ AddUserTx) true false
                "insert" (closure db AddUserTx true false "insert")
                [VIface TDBResource (Some (VPtr TConn None)); VString "john"; VInt 65] s0
                NilHandle [Some (VString "john"); Some (VInt 65)] eq_refl eq_refl)
      as (added & Ht & _ & Hadded & Hpanic).
    cbv zeta. rewrite Ht, Hadded. split; [reflexivity | exact Hpanic].
Defined.

(** [SelectUser] on a table with the row, and with a scanner that fails. *)
Lemma queryOne_pointer_scanned_witness :
  let q := "select * from users where id = $1" in
  let s' := {| world := 1%nat;
               trace := [EvQueryContext (Live 0%nat) q [Some (VInt64 7)]; EvScanOne (New User)] |} in
  boundCall dbOne scanner false (Live 0%nat) true (Typ SelectUser) false true q [VInt64 7] s0 =
    Some (s', Ret [VPtr (TPointer User) (Some john); VIface TError None])
  /\ boundCall dbOne badScanner false (Live 0%nat) true (Typ SelectUser) false true q [VInt64 7] s0 =
       Some (s', Ret [VPtr (TPointer User) (Some (zeroValue User));
                      VIface TError (Some (VErr noColumn))]).
Proof.
  intros q s'. split.
  - exact (proj1 (queryOne_pointer_scanned dbOne scanner false (Live 0%nat) true q [VInt64 7] s0
                    0%nat [Some (VInt64 7)] 1%nat 1%nat [john] john None [TInt64] User
                    eq_refl eq_refl eq_refl eq_refl)).
  - exact (proj1 (queryOne_pointer_scanned dbOne badScanner false (Live 0%nat) true q [VInt64 7] s0
                    0%nat [Some (VInt64 7)] 1%nat 1%nat [john] (zeroValue User)
                    (Some noColumn) [TInt64] User eq_refl eq_refl eq_refl eq_refl)).
Defined.

(** [GetUser], with [User] by value, on a table with the row. *)
Lemma queryOne_by_value_always_panics_witness :
  exists s' p,
    boundCall dbOne scanner false (Live 0%nat) true (Typ GetUser) false true
              "select * from users where id = $1" [VInt64 7] s0 = Some (s', Panic p).
Proof.
  refine (proj2 (queryOne_by_value_always_panics dbOne scanner false (Live 0%nat) true
                   "select * from users where id = $1" [VInt64 7] s0 0%nat
                   [Some (VInt64 7)] 1%nat [john] [TInt64] User eq_refl eq_refl _ _));
    discriminate.
Defined.

(** [GetUser] under a scanner whose [ScanRow] wants the cursor on a row:
    the convention with an error result panics on the type of its first
    result, and the one without panics with the error of the scan. *)
Lemma by_value_queryOne_on_unadvanced_cursor :
  let q := "select * from users where id = $1" in
  let s' := {| world := 1%nat;
               trace := [EvQueryContext (Live 0%nat) q [Some (VInt64 7)];
                         EvScanRow (New User)] |} in
  boundCall dbOne rowScanner false (Live 0%nat) true (TFunc [TInt64] [User; TError])
            false true q [VInt64 7] s0 =
    Some (s', Panic (PanicStr
                       "reflect.MakeFunc: value of type *User is not assignable to type User"))
  /\ boundCall dbOne rowScanner false (Live 0%nat) true (TFunc [TInt64] [User])
               false true q [VInt64 7] s0 =
       Some (s', Panic (PanicErr notAdvanced)).
Proof. split; reflexivity. Qed.

(** A [@query] function declared with one [User] as result. *)
Lemma queryMany_non_slice_panics_witness :
  boundCall dbOne scanner false (Live 0%nat) true (TFunc [] [User; TError]) false false
            "select * from users" [] s0 =
  Some ({| world := 1%nat; trace := [EvQueryContext (Live 0%nat) "select * from users" []] |},
        Panic (PanicStr "reflect.MakeSlice of non-slice type")).
Proof.
  refine (proj2 (queryMany_non_slice_panics dbOne scanner false (Live 0%nat) true
                   "select * from users" [] s0 0%nat [] 1%nat [john] [] User
                   eq_refl eq_refl _)).
  discriminate.
Defined.

(** A table with one row, and a scan that fails. *)
Lemma queryMany_scanned_witness :
  let q := "select * from users" in
  let users := TSlice User in
  let s' := {| world := 1%nat;
               trace := [EvQueryContext (Live 0%nat) q [];
                         EvScanAll (VPtr (TPointer users) (Some (VSlice users (Some []))))] |} in
  boundCall dbOne scanner false (Live 0%nat) true (TFunc [] [users]) false false q [] s0 =
    Some (s', Ret [VSlice users (Some [john])])
  /\ boundCall dbOne badScanner false (Live 0%nat) true (TFunc [] [users; TError]) false false q [] s0 =
       Some (s', Ret [VSlice users (Some []); VIface TError (Some (VErr noColumn))]).
Proof.
  intros q users s'. split.
  - exact (proj2 (queryMany_scanned dbOne scanner false (Live 0%nat) true q [] s0 0%nat []
                    1%nat 1%nat [john] (Some [john]) None [] User
                    eq_refl eq_refl eq_refl)).
  - exact (proj1 (queryMany_scanned dbOne badScanner false (Live 0%nat) true q [] s0 0%nat []
                    1%nat 1%nat [john] (Some []) (Some noColumn) [] User
                    eq_refl eq_refl eq_refl)).
Defined.

(** The struct of the tests: a literal directive and one from a file. *)
Lemma bound_field_runs_its_directive_witness :
  let fields := [AddUser; SelectUser; SelectAllUsers; InsertUserQueryLoader] in
  (exists call,
     slotOf (btarget (bindDemo false fields)) "AddUser" = Some (SFunc call)
     /\ forall args st,
          boundCall db scanner false (Live 0%nat) true (Typ AddUser) true false
                    "insert into users(name, age) values ($1, $2)" args st =
          Some (call args st))
  /\ (exists script call,
        slotOf (btarget (bindDemo false fields)) "InsertUserQueryLoader" = Some (SFunc call)
        /\ (forall args st,
              boundCall db scanner false (Live 0%nat) true (Typ InsertUserQueryLoader) true false
                        script args st = Some (call args st))
        /\ exists w0 w1, Get loader "insert_user_steve.sql" w0 = (w1, Ok script)).
Proof.
  intros fields.
  assert (Hnd : List.NoDup (map Name (List.filter needsBinding fields)))
    by (repeat constructor; simpl; intuition discriminate).
  split.
  - destruct (bound_field_runs_its_directive db scanner false (Live 0%nat) (Some loader) true "Repo" fields
                (emptyRepo fields) s0 AddUser true false
                "insert into users(name, age) values ($1, $2)" Hnd eq_refl
                (or_introl eq_refl) eq_refl eq_refl)
      as (script & call & Hslot & Hcall & Hlit & _).
    exists call. split; [exact Hslot|].
    rewrite <- Hlit; [exact Hcall|]. intros rest H. discriminate H.
  - destruct (bound_field_runs_its_directive db scanner false (Live 0%nat) (Some loader) true "Repo" fields
                (emptyRepo fields) s0 InsertUserQueryLoader true false
                "file:insert_user_steve" Hnd eq_refl
                (or_intror (or_intror (or_intror (or_introl eq_refl)))) eq_refl eq_refl)
      as (script & call & Hslot & Hcall & _ & Hfile).
    exists script, call. split; [exact Hslot|]. split; [exact Hcall|].
    destruct (Hfile "insert_user_steve" eq_refl) as (l & asked & w0 & w1 & Hl & Hname & Hget).
    injection Hl as <-. apply referenceName_fileName in Hname. subst asked.
    exists w0, w1. exact Hget.
Defined.

(** [Bind] without a loader: a struct of literal directives is bound, and
    the first directive that names a file makes [Bind] panic, with the
    fields before it bound. *)
Lemma Bind_on_nil_loader :
  boutcome (Bind db scanner false (Live 0%nat) None true
              (Some (target "Repo" [AddUser; SelectUser])) s0) = Ret None
  /\ (let r := Bind db scanner false (Live 0%nat) None true
                    (Some (target "Repo" [AddUser; InsertUserQueryLoader; SelectUser])) s0 in
      boutcome r = Panic nilDereference
      /\ trace (bstate r) = [EvGet "insert_user_steve.sql"]
      /\ (exists call, slotOf (btarget r) "AddUser" = Some (SFunc call))
      /\ slotOf (btarget r) "SelectUser" = Some (SData (VNilFunc (Typ SelectUser)))).
Proof. repeat split. eexists. reflexivity. Qed.

(** The file of the tests, with and without the extension. *)
Lemma loader_name_has_extension_witness :
  fileName "insert_user_steve.sql" = fileName "insert_user_steve"
  /\ fst (resolveQuery (Some loader) "file:insert_user_steve.sql" "InsertUserQueryLoader" s0) =
     fst (resolveQuery (Some loader) "file:insert_user_steve" "InsertUserQueryLoader" s0).
Proof.
  exact (proj2 (proj2 (loader_name_has_extension (Some loader))) "insert_user_steve"
               "InsertUserQueryLoader" s0 eq_refl).
Defined.

(** A resource with [DontPrefix], on names with one, two and no leading
    slash, and one without it. *)
Lemma Absolute_cases_witness :
  Absolute join (res true) "/a.sql" = "a.sql"
  /\ Absolute join (res true) "//a.sql" = "/a.sql"
  /\ Absolute join (res true) "a.sql" = "a.sql"
  /\ Absolute join (res false) "a.sql" = "test/a.sql".
Proof.
  split; [|split; [|split]].
  - exact (proj1 (proj2 (Absolute_cases join (res true) "/a.sql") eq_refl) "a.sql" eq_refl).
  - exact (proj1 (proj2 (Absolute_cases join (res true) "//a.sql") eq_refl) "/a.sql" eq_refl).
  - refine (proj2 (proj2 (Absolute_cases join (res true) "a.sql") eq_refl) _).
    intros x H. discriminate H.
  - exact (proj1 (Absolute_cases join (res false) "a.sql") eq_refl).
Defined.

(** The file of the tests, and a file that is not there. *)
Lemma probe_and_write_witness :
  (ProbeType join close ext mimeType (res false) "insert_user_steve.sql" 0%nat =
     (2%nat, ("application/sql", None))
   /\ WriteTo join close copy (res false) "insert_user_steve.sql" tt 0%nat =
        (3%nat, (49, None)))
  /\ (ProbeType join close ext mimeType (res false) "missing.sql" 0%nat =
        (1%nat, ("", Some notExist))
      /\ WriteTo join close copy (res false) "missing.sql" tt 0%nat =
           (1%nat, (0, Some notExist))).
Proof.
  split.
  - exact (probe_and_write join close ext mimeType copy (res false) "insert_user_steve.sql"
             tt 0%nat 1%nat (Ok "insert into users(name, age) values ('steve', 30)") eq_refl).
  - exact (probe_and_write join close ext mimeType copy (res false) "missing.sql"
             tt 0%nat 1%nat (Err notExist) eq_refl).
Defined.

(** [AddUser] after a statement that ran. *)
Lemma closure_returns_declared_count_witness :
  let fn := match runner db scanner false (Live 0%nat) true (Typ AddUser) true false "insert" with
            | Ret fn => fn
            | Panic _ => fun _ => ret []
            end in
  length (match fn [VString "john"; VInt 65] s0 with
          | (_, Ret out) => out
          | (_, Panic _) => []
          end) = 3%nat.
Proof.
  intros fn.
  exact (closure_returns_declared_count db scanner false (Live 0%nat) true (Typ AddUser) true false
           "insert" fn [VString "john"; VInt 65] s0 _ _ eq_refl eq_refl).
Defined.

End MoreExamples.
